(** * pdf_reader.py: a shallow embedding and its checked properties

    The script [pdf_reader.py] opens a PDF through PyPDF2, joins the text
    of its pages and stores the result next to the input file.  The
    embedding below keeps the script's two functions, [read_pdf] and
    [main], and its module level, and models everything they touch:

    - a Python string is the list of its Unicode code points, so that
      [len] and slices count characters as Python does;
    - [print], [open] for reading, the call of [extract_text], the
      [open] for writing and [f.write] are recorded, in program order,
      in a trace of [event]s;
    - an exception is its message ([str(e)]); [sys.exit] is a separate
      outcome because [SystemExit] is not caught by [except Exception];
    - PyPDF2 and the file system are an environment ([world]): what
      [os.path.exists] answers, what opening a path as a PDF gives, and
      whether a path can be opened for writing. *)

From Stdlib Require Import String Ascii List Arith NArith Bool Lia DecimalString.
From Stdlib Require DecimalNat DecimalFacts.
Import ListNotations.

Local Open Scope string_scope.
Local Open Scope list_scope.

(** ** Python strings *)

Module Py.

(** A character is a code point, a string the sequence of its
    characters. *)
Definition char : Type := N.
Definition str : Type := list char.

(** A string literal of the script; all of them are ASCII. *)
Definition lit (s : string) : str := map N_of_ascii (list_ascii_of_string s).

(** The one-character string [chr(10)], written [\n] in the script. *)
Definition nl : str := [10%N].

(** [str(n)] for a non-negative integer. *)
Definition str_of_nat (n : nat) : str :=
  lit (NilZero.string_of_uint (Nat.to_uint n)).

(** [a == b]. *)
Fixpoint eqb (a b : str) : bool :=
  match a, b with
  | [], [] => true
  | x :: a', y :: b' => N.eqb x y && eqb a' b'
  | _, _ => false
  end.

(** [s * n]. *)
Fixpoint times (s : str) (n : nat) : str :=
  match n with
  | O => []
  | S k => s ++ times s k
  end.

(** [sep.join(l)]. *)
Fixpoint join (sep : str) (l : list str) : str :=
  match l with
  | [] => []
  | [x] => x
  | x :: rest => x ++ sep ++ join sep rest
  end.

(** [s[:n]] and [s[n:]]: the first [n] characters, and the rest. *)
Definition slice_to (n : nat) (s : str) : str := firstn n s.
Definition slice_from (n : nat) (s : str) : str := skipn n s.

(** [s.startswith(p)]. *)
Fixpoint startswith (p s : str) : bool :=
  match p, s with
  | [], _ => true
  | a :: p', b :: s' => N.eqb a b && startswith p' s'
  | _ :: _, [] => false
  end.

(** [s.endswith(p)]. *)
Definition endswith (p s : str) : bool :=
  Nat.leb (List.length p) (List.length s)
  && eqb (slice_from (List.length s - List.length p) s) p.

(** [old in s]. *)
Fixpoint contains (old s : str) : bool :=
  startswith old s
  || match s with
     | [] => false
     | _ :: rest => contains old rest
     end.

(** [s.replace(old, new)] for a non-empty [old]: the occurrences of
    [old] are found from left to right and do not overlap.  After a
    match the scan resumes behind it; [skip] counts the characters of
    the matched occurrence still to be passed over. *)
Fixpoint replace_from (old new : str) (skip : nat) (s : str) : str :=
  match s with
  | [] => []
  | c :: rest =>
      match skip with
      | S k => replace_from old new k rest
      | O =>
          if startswith old s
          then new ++ replace_from old new (List.length old - 1) rest
          else c :: replace_from old new 0 rest
      end
  end.

(** With an empty [old] Python puts [new] before every character and
    at the end. *)
Fixpoint intersperse (new s : str) : str :=
  match s with
  | [] => new
  | c :: rest => new ++ c :: intersperse new rest
  end.

Definition replace (old new s : str) : str :=
  match old with
  | [] => intersperse new s
  | _ :: _ => replace_from old new 0 s
  end.

(** Truth value of an [Optional[str]]: [None] and the empty string
    are false. *)
Definition truthy (content : option str) : bool :=
  match content with
  | None => false
  | Some [] => false
  | Some (_ :: _) => true
  end.

(** The string held by an [Optional[str]] that is not [None]. *)
Definition str_value (content : option str) : str :=
  match content with
  | Some s => s
  | None => []
  end.

(** A character the UTF-8 codec encodes: a code point that is not a
    surrogate (U+D800 to U+DFFF). *)
Definition utf8_char (c : char) : bool :=
  (N.ltb c 55296 || N.leb 57344 c) && N.ltb c 1114112.

(** [s.encode('utf-8')] does not raise. *)
Definition utf8_encodable (s : str) : bool := forallb utf8_char s.

End Py.

(** ** Effects *)

(** What the script does to the outside, in program order. *)
Inductive event : Type :=
| Print (line : Py.str)               (* print(line) *)
| OpenRead (path : Py.str)            (* open(path, 'rb') *)
| ExtractText (page_num : nat)        (* page.extract_text() on that page *)
| Truncate (path : Py.str)            (* open(path, 'w', encoding='utf-8') returned: the file is there and empty *)
| WriteText (path content : Py.str).  (* f.write(content) encoded the text and the file holds it *)

Inductive outcome (A : Type) : Type :=
| Ret (a : A)            (* normal completion *)
| Raise (e : Py.str)     (* an Exception with message e *)
| SysExit (code : nat).  (* sys.exit(code) *)

Arguments Ret {A} a.
Arguments Raise {A} e.
Arguments SysExit {A} code.

(** A computation: the events it emitted and how it ended. *)
Definition M (A : Type) : Type := list event * outcome A.

Definition ret {A} (a : A) : M A := ([], Ret a).

Definition bind {A B} (m : M A) (f : A -> M B) : M B :=
  match m with
  | (tr, Ret a) => let (tr', o) := f a in (tr ++ tr', o)
  | (tr, Raise e) => (tr, Raise e)
  | (tr, SysExit c) => (tr, SysExit c)
  end.

Declare Scope py_scope.
Delimit Scope py_scope with py.
Notation "x <- m ;; k" := (bind m (fun x => k))
  (at level 61, m at next level, right associativity) : py_scope.
Notation "m ;; k" := (bind m (fun _ => k))
  (at level 61, right associativity) : py_scope.
Local Open Scope py_scope.

Definition emit (ev : event) : M unit := ([ev], Ret tt).
Definition print (line : Py.str) : M unit := emit (Print line).
Definition raise {A} (e : Py.str) : M A := ([], Raise e).
Definition sys_exit {A} (code : nat) : M A := ([], SysExit code).

(** [try: body / except Exception as e: handler e].  [SystemExit] is not
    an [Exception] and passes through. *)
Definition try_except {A} (body : M A) (handler : Py.str -> M A) : M A :=
  match body with
  | (tr, Raise e) => let (tr', o) := handler e in (tr ++ tr', o)
  | other => other
  end.

(** [if c: body], nothing otherwise. *)
Definition when (c : bool) (body : M unit) : M unit :=
  if c then body else ret tt.

Definition trace {A} (m : M A) : list event := fst m.
Definition result {A} (m : M A) : outcome A := snd m.

(** Exit status of the process that ran [m] as its main program: 0 on
    normal completion, the argument of [sys.exit], 1 for an exception
    nobody caught. *)
Definition exit_status {A} (m : M A) : nat :=
  match result m with
  | Ret _ => 0
  | Raise _ => 1
  | SysExit code => code
  end.

(** Lines on the console: the arguments of the [print] calls. *)
Fixpoint printed (tr : list event) : list Py.str :=
  match tr with
  | [] => []
  | Print line :: rest => line :: printed rest
  | _ :: rest => printed rest
  end.

(** Texts stored in files, the last one first. *)
Fixpoint writes (tr : list event) : list (Py.str * Py.str) :=
  match tr with
  | [] => []
  | WriteText path content :: rest => writes rest ++ [(path, content)]
  | _ :: rest => writes rest
  end.

(** Files created or emptied by an [open] for writing, in order. *)
Fixpoint truncated (tr : list event) : list Py.str :=
  match tr with
  | [] => []
  | Truncate path :: rest => path :: truncated rest
  | _ :: rest => truncated rest
  end.

(** What the run leaves in [path], given what was there before
    ([None]: there is no such file). *)
Fixpoint content_after (tr : list event) (path : Py.str) (before : option Py.str)
  : option Py.str :=
  match tr with
  | [] => before
  | Truncate p :: rest =>
      content_after rest path (if Py.eqb p path then Some [] else before)
  | WriteText p c :: rest =>
      content_after rest path (if Py.eqb p path then Some c else before)
  | _ :: rest => content_after rest path before
  end.

(** Page numbers on which [extract_text] was called, in call order. *)
Fixpoint extracted (tr : list event) : list nat :=
  match tr with
  | [] => []
  | ExtractText n :: rest => n :: extracted rest
  | _ :: rest => extracted rest
  end.

(** Paths opened for reading, in order. *)
Fixpoint opened (tr : list event) : list Py.str :=
  match tr with
  | [] => []
  | OpenRead path :: rest => path :: opened rest
  | _ :: rest => opened rest
  end.

(** ** The environment: PyPDF2 and the file system *)

(** A library call gives a value or raises. *)
Inductive attempt (A : Type) : Type :=
| Gives (a : A)
| Fails (e : Py.str).

Arguments Gives {A} a.
Arguments Fails {A} e.

(** A page object: what [page.extract_text()] does. *)
Record Page : Type := { extract_text : attempt Py.str }.

(** A [PyPDF2.PdfReader]: what reading [pdf_reader.pages] does (the
    reader is lazy, the page tree is read on first use). *)
Record PdfReader : Type := { pages : attempt (list Page) }.

Record world : Type := {
  argv : list Py.str;                           (* sys.argv *)
  path_exists : Py.str -> bool;                 (* os.path.exists *)
  open_pdf : Py.str -> attempt PdfReader;       (* open(path, 'rb') then PyPDF2.PdfReader(file) *)
  open_for_writing : Py.str -> attempt unit     (* open(path, 'w', encoding='utf-8') *)
}.

Definition call {A} (a : attempt A) : M A :=
  match a with
  | Gives v => ret v
  | Fails e => raise e
  end.

(** ** The script *)

Definition rule : Py.str := Py.times (Py.lit "-") 50.

Definition page_header (page_num : nat) : Py.str :=
  Py.nl ++ Py.lit "--- PAGE " ++ Py.str_of_nat page_num ++ Py.lit " ---" ++ Py.nl.

Definition progress_line (page_num : nat) : Py.str :=
  Py.lit "Processing page " ++ Py.str_of_nat page_num ++ Py.lit "...".

(** The loop [for page_num, page in enumerate(pdf_reader.pages, 1)],
    from [page_num] on, with [text_content] as accumulated so far. *)
Fixpoint for_pages (page_num : nat) (ps : list Page) (text_content : list Py.str)
  : M (list Py.str) :=
  match ps with
  | [] => ret text_content
  | page :: rest =>
      print (progress_line page_num) ;;
      emit (ExtractText page_num) ;;
      page_text <- call (extract_text page) ;;
      for_pages (S page_num) rest
        (text_content ++ [page_header page_num; page_text])
  end.

Definition read_pdf (w : world) (file_path : Py.str) : M (option Py.str) :=
  try_except
    (emit (OpenRead file_path) ;;
     pdf_reader <- call (open_pdf w file_path) ;;
     print (Py.lit "Reading PDF: " ++ file_path) ;;
     ps <- call (pages pdf_reader) ;;
     print (Py.lit "Number of pages: " ++ Py.str_of_nat (List.length ps)) ;;
     print rule ;;
     text_content <- for_pages 1 ps [] ;;
     ret (Some (Py.join Py.nl text_content)))
    (fun e =>
       print (Py.lit "Error reading PDF: " ++ e) ;;
       ret None).

(** The message of the [UnicodeEncodeError] of [f.write]; Python adds
    the character and its position. *)
Definition encode_error : Py.str :=
  Py.lit "'utf-8' codec can't encode character: surrogates not allowed".

(** [with open(output_file, 'w', encoding='utf-8') as f:
    f.write(content)].  The [open] can raise; when it returns the file
    is there and empty.  [f.write] encodes the whole text first and
    raises when a character has no UTF-8 encoding; the file, closed on
    the way out, stays empty then.  Nothing here is inside a [try]. *)
Definition save (w : world) (output_file content : Py.str) : M unit :=
  call (open_for_writing w output_file) ;;
  emit (Truncate output_file) ;;
  when (negb (Py.utf8_encodable content)) (raise encode_error) ;;
  emit (WriteText output_file content).

Definition main (w : world) : M unit :=
  when (negb (Nat.eqb (List.length (argv w)) 2))
    (print (Py.lit "Usage: python pdf_reader.py <pdf_file_path>") ;;
     sys_exit 1) ;;
  let pdf_path := nth 1 (argv w) [] in
  when (negb (path_exists w pdf_path))
    (print (Py.lit "File not found: " ++ pdf_path) ;;
     sys_exit 1) ;;
  content <- read_pdf w pdf_path ;;
  if Py.truthy content then
    let text := Py.str_value content in
    let output_file := Py.replace (Py.lit ".pdf") (Py.lit "_extracted.txt") pdf_path in
    save w output_file text ;;
    print (Py.nl ++ Py.lit "Text extracted and saved to: " ++ output_file) ;;
    print (Py.nl ++ Py.lit "First 2000 characters:") ;;
    print rule ;;
    print (Py.slice_to 2000 text) ;;
    print (if Nat.ltb 2000 (List.length text) then Py.lit "..." else Py.lit "")
  else
    print (Py.lit "Failed to extract text from PDF").

(** ** Vocabulary of the statements *)

(** A page whose text is [t], and a page on which [extract_text] raises
    [e] (a content stream PyPDF2 cannot decode). *)
Definition good (t : Py.str) : Page := {| extract_text := Gives t |}.
Definition damaged (e : Py.str) : Page := {| extract_text := Fails e |}.

(** A reader over the given pages. *)
Definition reader_of (ps : list Page) : PdfReader := {| pages := Gives ps |}.

(** The console lines and [extract_text] calls of [count] consecutive
    pages starting at page [first]. *)
Definition visits (first count : nat) : list event :=
  flat_map (fun n => [Print (progress_line n); ExtractText n]) (seq first count).

(** The pairs [(page_number, text)] of consecutive pages from [first]. *)
Definition numbered (first : nat) (ts : list Py.str) : list (nat * Py.str) :=
  combine (seq first (List.length ts)) ts.

(** The list [text_content] the loop builds from these pairs. *)
Definition entries (first : nat) (ts : list Py.str) : list Py.str :=
  flat_map (fun nt => [page_header (fst nt); snd nt]) (numbered first ts).

(** What [read_pdf] emits before the loop, for a reader with [n] pages. *)
Definition preamble (file_path : Py.str) (n : nat) : list event :=
  [OpenRead file_path;
   Print (Py.lit "Reading PDF: " ++ file_path);
   Print (Py.lit "Number of pages: " ++ Py.str_of_nat n);
   Print rule].

(** One page in the returned text: its header, the newline [join] puts
    between two list items, its text. *)
Definition page_block (nt : nat * Py.str) : Py.str :=
  page_header (fst nt) ++ Py.nl ++ snd nt.

(** The console lines of [main] after the text is saved. *)
Definition report (output_file text : Py.str) : list Py.str :=
  [Py.nl ++ Py.lit "Text extracted and saved to: " ++ output_file;
   Py.nl ++ Py.lit "First 2000 characters:";
   rule;
   Py.slice_to 2000 text;
   if Nat.ltb 2000 (List.length text) then Py.lit "..." else Py.lit ""].

(** The output path [main] computes. *)
Definition output_path (pdf_path : Py.str) : Py.str :=
  Py.replace (Py.lit ".pdf") (Py.lit "_extracted.txt") pdf_path.

(** A file system for examples: the paths that exist with what
    opening each of them as a PDF gives, and the paths that cannot be
    opened for writing with the error of [open]. *)
Definition disk : Type := list (Py.str * attempt PdfReader).

Definition world_of (args : list Py.str) (d : disk) (locked : list (Py.str * Py.str))
  : world :=
  {| argv := args;
     path_exists := fun p => existsb (fun e => Py.eqb (fst e) p) d;
     open_pdf := fun p =>
       match find (fun e => Py.eqb (fst e) p) d with
       | Some e => snd e
       | None => Fails (Py.lit "[Errno 2] No such file or directory")
       end;
     open_for_writing := fun p =>
       match find (fun e => Py.eqb (fst e) p) locked with
       | Some e => Fails (snd e)
       | None => Gives tt
       end |}.

(** ** The module level of the script

    Before [read_pdf] and [main] are defined the script imports PyPDF2
    and, when that fails, runs pip and imports again; at its end it
    calls [main] when it is run as a program. *)

(** What the module level does: a shell command ([os.system]) or one
    of the events above. *)
Inductive action : Type :=
| Shell (command : Py.str)
| Effect (ev : event).

(** The machine the script runs on. *)
Record host : Type := {
  pypdf2_installed : bool;     (* import PyPDF2 works when the script starts *)
  pip_installs_pypdf2 : bool;  (* import PyPDF2 works after pip install PyPDF2 *)
  run_as_script : bool;        (* __name__ == "__main__" *)
  host_world : world
}.

Definition Script (A : Type) : Type := list action * outcome A.

Definition and_then {A B} (m : Script A) (f : A -> Script B) : Script B :=
  match m with
  | (tr, Ret a) => let (tr', o) := f a in (tr ++ tr', o)
  | (tr, Raise e) => (tr, Raise e)
  | (tr, SysExit c) => (tr, SysExit c)
  end.

(** [try: body / except ImportError: handler]. *)
Definition except_import_error {A} (body : Script A) (handler : Script A) : Script A :=
  match body with
  | (tr, Raise _) => let (tr', o) := handler in (tr ++ tr', o)
  | other => other
  end.

(** A computation of the script proper, run at module level. *)
Definition lift {A} (m : M A) : Script A := (map Effect (fst m), snd m).

Definition os_system (command : Py.str) : Script unit := ([Shell command], Ret tt).

(** [import PyPDF2]. *)
Definition import_pypdf2 (available : bool) : Script unit :=
  if available then ([], Ret tt) else ([], Raise (Py.lit "No module named 'PyPDF2'")).

Definition script (h : host) : Script unit :=
  and_then
    (except_import_error
       (import_pypdf2 (pypdf2_installed h))
       (and_then (lift (print (Py.lit "PyPDF2 not found. Installing..."))) (fun _ =>
        and_then (os_system (Py.lit "pip install PyPDF2")) (fun _ =>
        import_pypdf2 (pip_installs_pypdf2 h)))))
    (fun _ =>
       if run_as_script h then lift (main (host_world h)) else ([], Ret tt)).

(** Exit status of the interpreter that ran the script. *)
Definition script_status (m : Script unit) : nat :=
  match snd m with
  | Ret _ => 0
  | Raise _ => 1
  | SysExit code => code
  end.

(** The events of the script proper among the actions. *)
Fixpoint effects (acts : list action) : list event :=
  match acts with
  | [] => []
  | Effect ev :: rest => ev :: effects rest
  | Shell _ :: rest => effects rest
  end.

(** The shell commands among the actions. *)
Fixpoint shell_commands (acts : list action) : list Py.str :=
  match acts with
  | [] => []
  | Shell command :: rest => command :: shell_commands rest
  | Effect _ :: rest => shell_commands rest
  end.

(** ** The claims as the specification words them

    Each definition below follows the specification's sentence, not the
    script; the theorems compare it with [read_pdf] and [main]. *)

(** Partial-failure semantics: whatever the pages of the document do,
    the result is a text, and it holds the text of every page that
    could be decoded. *)
Definition spec_partial_failure (w : world) (file_path : Py.str) : Prop :=
  forall r ps,
    open_pdf w file_path = Gives r ->
    pages r = Gives ps ->
    exists text,
      result (read_pdf w file_path) = Ret (Some text)
      /\ forall n t, nth_error ps n = Some (good t) -> Py.contains t text = true.

(** The separator of page n immediately before the text of page n, and
    nothing between them. *)
Definition spec_concatenation (ts : list Py.str) : Py.str :=
  concat (map (fun nt => page_header (fst nt) ++ snd nt) (numbered 1 ts)).

(** The input path with [_extracted.txt] in place of its [.pdf]
    extension. *)
Definition spec_output_path (input : Py.str) : Py.str :=
  if Py.endswith (Py.lit ".pdf") input
  then Py.slice_to (List.length input - 4) input ++ Py.lit "_extracted.txt"
  else input ++ Py.lit "_extracted.txt".

(** Every page of the document is visited: [extract_text] is called on
    pages 1, 2, ..., n in this order, and every page has its progress
    line. *)
Definition spec_all_pages_visited (w : world) (file_path : Py.str) : Prop :=
  forall r ps,
    open_pdf w file_path = Gives r ->
    pages r = Gives ps ->
    extracted (trace (read_pdf w file_path)) = seq 1 (List.length ps)
    /\ forall n, 1 <= n <= List.length ps ->
                 In (progress_line n) (printed (trace (read_pdf w file_path))).


(** For an input path without [.pdf] the input file is overwritten
    with the extracted text. *)
Definition spec_input_overwritten (w : world) (pdf_path : Py.str) : Prop :=
  forall text before,
    result (read_pdf w pdf_path) = Ret (Some text) ->
    text <> [] ->
    Py.contains (Py.lit ".pdf") pdf_path = false ->
    content_after (trace (main w)) pdf_path before = Some text.

(** ** Sample runs *)

Definition prog : Py.str := Py.lit "pdf_reader.py".

(** A three-page document whose second page cannot be decoded. *)
Definition three_pages : list Page :=
  [good (Py.lit "one");
   damaged (Py.lit "unsupported filter FlateDecodeX");
   good (Py.lit "three")].

Definition sample_three : world :=
  world_of [prog; Py.lit "doc.pdf"]
           [(Py.lit "doc.pdf", Gives (reader_of three_pages))] [].

(** A two-page document. *)
Definition cv_pages : list Py.str := [Py.lit "Ada"; Py.lit "Lovelace"].

Definition sample_cv : world :=
  world_of [prog; Py.lit "cv.pdf"]
           [(Py.lit "cv.pdf", Gives (reader_of (map good cv_pages)))] [].

(** The text [read_pdf] returns for it. *)
Definition cv_text : Py.str := Py.join Py.nl (entries 1 cv_pages).


(** A one-page document. *)
Definition sample_one : world :=
  world_of [prog; Py.lit "a.pdf"]
           [(Py.lit "a.pdf", Gives (reader_of [good (Py.lit "A")]))] [].

(** A document in a directory whose name holds [.pdf]; there is no
    directory [archive_extracted.txts]. *)
Definition sample_nested : world :=
  world_of [prog; Py.lit "archive.pdfs/cv.pdf"]
           [(Py.lit "archive.pdfs/cv.pdf", Gives (reader_of [good (Py.lit "Ada")]))]
           [(Py.lit "archive_extracted.txts/cv_extracted.txt",
             Py.lit "[Errno 2] No such file or directory")].

(** The same document when there is such a directory. *)
Definition sample_nested_dir : world :=
  world_of [prog; Py.lit "archive.pdfs/cv.pdf"]
           [(Py.lit "archive.pdfs/cv.pdf", Gives (reader_of [good (Py.lit "Ada")]))] [].

(** The text [read_pdf] returns for a single page with the text
    [Ada]. *)
Definition ada_text : Py.str := page_header 1 ++ Py.nl ++ Py.lit "Ada".

(** A PDF stored under a name without [.pdf], and the same when the
    file is read-only. *)
Definition sample_plain : world :=
  world_of [prog; Py.lit "scan"]
           [(Py.lit "scan", Gives (reader_of [good (Py.lit "Ada")]))] [].

Definition sample_plain_locked : world :=
  world_of [prog; Py.lit "scan"]
           [(Py.lit "scan", Gives (reader_of [good (Py.lit "Ada")]))]
           [(Py.lit "scan", Py.lit "[Errno 13] Permission denied")].


(** The path given on the command line does not exist. *)
Definition sample_missing : world :=
  world_of [prog; Py.lit "nowhere.pdf"]
           [(Py.lit "cv.pdf", Gives (reader_of [good (Py.lit "Ada")]))] [].

(** A file that exists and is no PDF. *)
Definition sample_broken : world :=
  world_of [prog; Py.lit "broken.pdf"]
           [(Py.lit "broken.pdf", Fails (Py.lit "EOF marker not found"))] [].

(** A one-page document with 2100 characters of text, and the text
    [read_pdf] returns for it. *)
Definition sample_long : world :=
  world_of [prog; Py.lit "long.pdf"]
           [(Py.lit "long.pdf", Gives (reader_of [good (Py.times (Py.lit "x") 2100)]))] [].

Definition long_text : Py.str :=
  page_header 1 ++ Py.nl ++ Py.times (Py.lit "x") 2100.

(** A one-page document of 1500 euro signs (U+20AC, three bytes each in
    UTF-8), and the text [read_pdf] returns for it. *)
Definition sample_euro : world :=
  world_of [prog; Py.lit "euro.pdf"]
           [(Py.lit "euro.pdf", Gives (reader_of [good (Py.times [8364%N] 1500)]))] [].

Definition euro_text : Py.str := page_header 1 ++ Py.nl ++ Py.times [8364%N] 1500.

(** A one-page document whose text holds a lone surrogate (U+DC80). *)
Definition sample_surrogate : world :=
  world_of [prog; Py.lit "odd.pdf"]
           [(Py.lit "odd.pdf", Gives (reader_of [good [65%N; 56448%N]]))] [].

(** Two paths on the command line. *)
Definition sample_two_arguments : world :=
  world_of [prog; Py.lit "cv.pdf"; Py.lit "b.pdf"]
           [(Py.lit "cv.pdf", Gives (reader_of [good (Py.lit "Ada")]))] [].

(** A PDF whose page tree cannot be read. *)
Definition sample_bad_tree : world :=
  world_of [prog; Py.lit "tree.pdf"]
           [(Py.lit "tree.pdf",
             Gives {| pages := Fails (Py.lit "Cannot find Root object in pdf") |})] [].

(** A document with two pages without text. *)
Definition sample_blank : world :=
  world_of [prog; Py.lit "blank.pdf"]
           [(Py.lit "blank.pdf", Gives (reader_of [good []; good []]))] [].

(** A machine without PyPDF2 on which pip cannot install it, and one
    on which pip installs it. *)
Definition host_without_pypdf2 : host :=
  {| pypdf2_installed := false; pip_installs_pypdf2 := false;
     run_as_script := true; host_world := sample_cv |}.

Definition host_installing_pypdf2 : host :=
  {| pypdf2_installed := false; pip_installs_pypdf2 := true;
     run_as_script := true; host_world := sample_cv |}.

Arguments page_header : simpl never.
Arguments progress_line : simpl never.
Arguments rule : simpl never.
Arguments Py.str_of_nat : simpl never.
Arguments Py.lit : simpl never.

(** ** Strings *)


Lemma slice_to_length (n : nat) (s : Py.str) :
  List.length (Py.slice_to n s) = Nat.min n (List.length s).
Proof. apply length_firstn. Qed.

Lemma slice_to_short (n : nat) (s : Py.str) :
  List.length s <= n -> Py.slice_to n s = s.
Proof. apply firstn_all2. Qed.

Lemma eqb_refl (s : Py.str) : Py.eqb s s = true.
Proof.
  induction s as [|c s IH]; simpl; [reflexivity|].
  now rewrite N.eqb_refl, IH.
Qed.

(** ** The loop over the pages *)

Lemma visits_S (first count : nat) :
  visits first (S count)
  = Print (progress_line first) :: ExtractText first :: visits (S first) count.
Proof. reflexivity. Qed.

Lemma entries_cons (first : nat) (t : Py.str) (ts : list Py.str) :
  entries first (t :: ts) = page_header first :: t :: entries (S first) ts.
Proof. reflexivity. Qed.

Lemma for_pages_good (ts : list Py.str) :
  forall page_num acc,
    for_pages page_num (map good ts) acc
    = (visits page_num (List.length ts), Ret (acc ++ entries page_num ts)).
Proof.
  induction ts as [|t ts IH]; intros page_num acc.
  - simpl. unfold ret, visits. simpl. now rewrite app_nil_r.
  - cbn [map for_pages List.length]. rewrite visits_S, entries_cons.
    unfold print, emit, good at 1. cbn [bind call extract_text ret app].
    rewrite IH. cbn [app]. rewrite <- app_assoc. reflexivity.
Qed.

Lemma for_pages_damaged (before : list Py.str) (e : Py.str) (after : list Page) :
  forall page_num acc,
    for_pages page_num (map good before ++ damaged e :: after) acc
    = (visits page_num (S (List.length before)), Raise e).
Proof.
  induction before as [|t ts IH]; intros page_num acc.
  - reflexivity.
  - cbn [map for_pages List.length app]. rewrite visits_S.
    unfold print, emit, good at 1. cbn [bind call extract_text ret app].
    rewrite IH. reflexivity.
Qed.

(** Every page list is all good, or has a first damaged page. *)
Lemma pages_split (ps : list Page) :
  (exists ts, ps = map good ts)
  \/ (exists before e after, ps = map good before ++ damaged e :: after).
Proof.
  induction ps as [|[[t|e]] ps IH].
  - left. now exists [].
  - destruct IH as [[ts ->] | (before & e & after & ->)].
    + left. now exists (t :: ts).
    + right. now exists (t :: before), e, after.
  - right. now exists [], e, ps.
Qed.

(** ** [read_pdf] *)

Lemma read_pdf_unopenable (w : world) (file_path e : Py.str) :
  open_pdf w file_path = Fails e ->
  read_pdf w file_path
  = ([OpenRead file_path; Print (Py.lit "Error reading PDF: " ++ e)], Ret None).
Proof.
  intros H. unfold read_pdf. rewrite H. reflexivity.
Qed.

Lemma read_pdf_bad_tree (w : world) (file_path e : Py.str) (r : PdfReader) :
  open_pdf w file_path = Gives r ->
  pages r = Fails e ->
  read_pdf w file_path
  = ([OpenRead file_path;
      Print (Py.lit "Reading PDF: " ++ file_path);
      Print (Py.lit "Error reading PDF: " ++ e)], Ret None).
Proof.
  intros H1 H2. unfold read_pdf. rewrite H1. cbn [call bind emit ret print].
  rewrite H2. reflexivity.
Qed.

Lemma read_pdf_good (w : world) (file_path : Py.str) (r : PdfReader) (ts : list Py.str) :
  open_pdf w file_path = Gives r ->
  pages r = Gives (map good ts) ->
  read_pdf w file_path
  = (preamble file_path (List.length ts) ++ visits 1 (List.length ts),
     Ret (Some (Py.join Py.nl (entries 1 ts)))).
Proof.
  intros H1 H2. unfold read_pdf. rewrite H1. cbn [call bind emit ret print].
  rewrite H2. cbn [call bind emit ret print]. rewrite for_pages_good.
  rewrite length_map. cbn [bind ret app try_except]. rewrite app_nil_r.
  reflexivity.
Qed.

Lemma read_pdf_damaged (w : world) (file_path : Py.str) (r : PdfReader)
      (before : list Py.str) (e : Py.str) (after : list Page) :
  open_pdf w file_path = Gives r ->
  pages r = Gives (map good before ++ damaged e :: after) ->
  read_pdf w file_path
  = (preamble file_path (List.length before + S (List.length after))
     ++ visits 1 (S (List.length before))
     ++ [Print (Py.lit "Error reading PDF: " ++ e)],
     Ret None).
Proof.
  intros H1 H2. unfold read_pdf. rewrite H1. cbn [call bind emit ret print].
  rewrite H2. cbn [call bind emit ret print]. rewrite for_pages_damaged.
  rewrite length_app, length_map.
  cbn [List.length app try_except bind print emit ret]. reflexivity.
Qed.

(** [read_pdf] always returns, with a text or [None]. *)
Lemma read_pdf_returns (w : world) (file_path : Py.str) :
  exists content, result (read_pdf w file_path) = Ret content.
Proof.
  destruct (open_pdf w file_path) as [r|e] eqn:H1.
  - destruct (pages r) as [ps|e] eqn:H2.
    + destruct (pages_split ps) as [[ts ->] | (before & e & after & ->)].
      * rewrite (read_pdf_good _ _ _ _ H1 H2). now eexists.
      * rewrite (read_pdf_damaged _ _ _ _ _ _ H1 H2). now eexists.
    + rewrite (read_pdf_bad_tree _ _ _ _ H1 H2). now eexists.
  - rewrite (read_pdf_unopenable _ _ _ H1). now eexists.
Qed.

(** ** [main] *)

Lemma trace_pair {A} (tr : list event) (o : outcome A) : trace (tr, o) = tr.
Proof. reflexivity. Qed.

Lemma main_usage (w : world) :
  List.length (argv w) <> 2 ->
  main w = ([Print (Py.lit "Usage: python pdf_reader.py <pdf_file_path>")], SysExit 1).
Proof.
  intros H. unfold main. apply Nat.eqb_neq in H. rewrite H. reflexivity.
Qed.

Lemma main_missing (w : world) (prog pdf_path : Py.str) :
  argv w = [prog; pdf_path] ->
  path_exists w pdf_path = false ->
  main w = ([Print (Py.lit "File not found: " ++ pdf_path)], SysExit 1).
Proof.
  intros Hargv Hex. unfold main. rewrite Hargv.
  cbn [List.length Nat.eqb negb when nth bind ret app]. rewrite Hex. reflexivity.
Qed.

Lemma bind_ret_l {A B} (a : A) (f : A -> M B) : bind (ret a) f = f a.
Proof. unfold bind, ret. now destruct (f a). Qed.

(** From the call of [read_pdf] on, when the arguments are in order. *)
Lemma main_continues (w : world) (prog pdf_path : Py.str) :
  argv w = [prog; pdf_path] ->
  path_exists w pdf_path = true ->
  main w
  = (content <- read_pdf w pdf_path ;;
     if Py.truthy content then
       save w (output_path pdf_path) (Py.str_value content) ;;
       print (Py.nl ++ Py.lit "Text extracted and saved to: " ++ output_path pdf_path) ;;
       print (Py.nl ++ Py.lit "First 2000 characters:") ;;
       print rule ;;
       print (Py.slice_to 2000 (Py.str_value content)) ;;
       print (if Nat.ltb 2000 (List.length (Py.str_value content))
              then Py.lit "..." else Py.lit "")
     else
       print (Py.lit "Failed to extract text from PDF")).
Proof.
  intros Hargv Hex. unfold main. rewrite Hargv.
  cbn [List.length Nat.eqb negb when nth]. rewrite bind_ret_l, Hex.
  cbn [negb when]. now rewrite bind_ret_l.
Qed.

(** The text is saved and reported. *)
Lemma main_saved (w : world) (prog pdf_path text : Py.str) :
  argv w = [prog; pdf_path] ->
  path_exists w pdf_path = true ->
  result (read_pdf w pdf_path) = Ret (Some text) ->
  text <> [] ->
  open_for_writing w (output_path pdf_path) = Gives tt ->
  Py.utf8_encodable text = true ->
  main w
  = (trace (read_pdf w pdf_path)
     ++ Truncate (output_path pdf_path)
     :: WriteText (output_path pdf_path) text
     :: map Print (report (output_path pdf_path) text),
     Ret tt).
Proof.
  intros Hargv Hex Hres Htext Hopen Henc. rewrite (main_continues _ _ _ Hargv Hex).
  destruct (read_pdf w pdf_path) as [tr o]. unfold result, trace in *.
  cbn [fst snd] in *. subst o. cbn [bind].
  destruct text as [|c text]; [now destruct Htext|].
  cbn [Py.truthy Py.str_value]. unfold save. rewrite Hopen, Henc.
  unfold print, emit. cbn [call negb when ret bind app]. reflexivity.
Qed.

(** The output file cannot be opened: the exception of [open] ends the
    run. *)
Lemma main_unwritable (w : world) (prog pdf_path text e : Py.str) :
  argv w = [prog; pdf_path] ->
  path_exists w pdf_path = true ->
  result (read_pdf w pdf_path) = Ret (Some text) ->
  text <> [] ->
  open_for_writing w (output_path pdf_path) = Fails e ->
  main w = (trace (read_pdf w pdf_path), Raise e).
Proof.
  intros Hargv Hex Hres Htext Hopen. rewrite (main_continues _ _ _ Hargv Hex).
  destruct (read_pdf w pdf_path) as [tr o]. unfold result, trace in *.
  cbn [fst snd] in *. subst o. cbn [bind].
  destruct text as [|c text]; [now destruct Htext|].
  cbn [Py.truthy Py.str_value]. unfold save. rewrite Hopen.
  cbn [call raise bind app]. now rewrite app_nil_r.
Qed.

(** The text has a character without UTF-8 encoding: the file is
    emptied and the exception of [f.write] ends the run. *)
Lemma main_unencodable (w : world) (prog pdf_path text : Py.str) :
  argv w = [prog; pdf_path] ->
  path_exists w pdf_path = true ->
  result (read_pdf w pdf_path) = Ret (Some text) ->
  text <> [] ->
  open_for_writing w (output_path pdf_path) = Gives tt ->
  Py.utf8_encodable text = false ->
  main w
  = (trace (read_pdf w pdf_path) ++ [Truncate (output_path pdf_path)],
     Raise encode_error).
Proof.
  intros Hargv Hex Hres Htext Hopen Henc. rewrite (main_continues _ _ _ Hargv Hex).
  destruct (read_pdf w pdf_path) as [tr o]. unfold result, trace in *.
  cbn [fst snd] in *. subst o. cbn [bind].
  destruct text as [|c text]; [now destruct Htext|].
  cbn [Py.truthy Py.str_value]. unfold save. rewrite Hopen, Henc.
  unfold emit. cbn [call negb when raise ret bind app]. reflexivity.
Qed.

Lemma main_failure (w : world) (prog pdf_path : Py.str) (content : option Py.str) :
  argv w = [prog; pdf_path] ->
  path_exists w pdf_path = true ->
  result (read_pdf w pdf_path) = Ret content ->
  Py.truthy content = false ->
  main w
  = (trace (read_pdf w pdf_path)
     ++ [Print (Py.lit "Failed to extract text from PDF")],
     Ret tt).
Proof.
  intros Hargv Hex Hres Hfalse. rewrite (main_continues _ _ _ Hargv Hex).
  destruct (read_pdf w pdf_path) as [tr o]. unfold result, trace in *.
  cbn [fst snd] in *. subst o. cbn [bind]. rewrite Hfalse. reflexivity.
Qed.

(** Projections of a trace. *)
Lemma printed_app (a b : list event) :
  printed (a ++ b) = printed a ++ printed b.
Proof.
  induction a as [|ev a IH]; [reflexivity|].
  destruct ev; simpl; try assumption. now rewrite IH.
Qed.

Lemma printed_map_Print (ls : list Py.str) : printed (map Print ls) = ls.
Proof.
  induction ls as [|l ls IH]; simpl; [reflexivity | now rewrite IH].
Qed.

Lemma writes_app (a b : list event) :
  writes (a ++ b) = writes b ++ writes a.
Proof.
  induction a as [|ev a IH]; simpl.
  - now rewrite app_nil_r.
  - destruct ev; try assumption. now rewrite IH, app_assoc.
Qed.

Lemma writes_map_Print (ls : list Py.str) : writes (map Print ls) = [].
Proof.
  induction ls as [|l ls IH]; simpl; [reflexivity | assumption].
Qed.

Lemma truncated_app (a b : list event) :
  truncated (a ++ b) = truncated a ++ truncated b.
Proof.
  induction a as [|ev a IH]; [reflexivity|].
  destruct ev; simpl; try assumption. now rewrite IH.
Qed.

Lemma truncated_map_Print (ls : list Py.str) : truncated (map Print ls) = [].
Proof.
  induction ls as [|l ls IH]; simpl; [reflexivity | assumption].
Qed.

Lemma extracted_app (a b : list event) :
  extracted (a ++ b) = extracted a ++ extracted b.
Proof.
  induction a as [|ev a IH]; [reflexivity|].
  destruct ev; simpl; try assumption. now rewrite IH.
Qed.

Lemma opened_app (a b : list event) :
  opened (a ++ b) = opened a ++ opened b.
Proof.
  induction a as [|ev a IH]; [reflexivity|].
  destruct ev; simpl; try assumption. now rewrite IH.
Qed.

Lemma opened_map_Print (ls : list Py.str) : opened (map Print ls) = [].
Proof.
  induction ls as [|l ls IH]; simpl; [reflexivity | assumption].
Qed.

Lemma content_after_app (a b : list event) (path : Py.str) (before : option Py.str) :
  content_after (a ++ b) path before
  = content_after b path (content_after a path before).
Proof.
  revert before; induction a as [|ev a IH]; intros before; [reflexivity|].
  destruct ev; simpl; apply IH.
Qed.

Lemma content_after_map_Print (ls : list Py.str) (path : Py.str) (before : option Py.str) :
  content_after (map Print ls) path before = before.
Proof.
  induction ls as [|l ls IH]; simpl; [reflexivity | assumption].
Qed.

Lemma extracted_visits (first count : nat) :
  extracted (visits first count) = seq first count.
Proof.
  revert first; induction count as [|count IH]; intros first.
  - reflexivity.
  - rewrite visits_S. simpl. now rewrite IH.
Qed.

Lemma printed_visits (first count : nat) :
  printed (visits first count) = map progress_line (seq first count).
Proof.
  revert first; induction count as [|count IH]; intros first.
  - reflexivity.
  - rewrite visits_S. simpl. now rewrite IH.
Qed.

Lemma writes_visits (first count : nat) : writes (visits first count) = [].
Proof.
  revert first; induction count as [|count IH]; intros first.
  - reflexivity.
  - rewrite visits_S. simpl. apply IH.
Qed.

Lemma truncated_visits (first count : nat) : truncated (visits first count) = [].
Proof.
  revert first; induction count as [|count IH]; intros first.
  - reflexivity.
  - rewrite visits_S. simpl. apply IH.
Qed.

Lemma opened_visits (first count : nat) : opened (visits first count) = [].
Proof.
  revert first; induction count as [|count IH]; intros first.
  - reflexivity.
  - rewrite visits_S. simpl. apply IH.
Qed.

Lemma content_after_visits (first count : nat) (path : Py.str) (before : option Py.str) :
  content_after (visits first count) path before = before.
Proof.
  revert first; induction count as [|count IH]; intros first.
  - reflexivity.
  - rewrite visits_S. simpl. apply IH.
Qed.

(** [read_pdf] changes no file. *)
Lemma read_pdf_writes_nothing (w : world) (file_path : Py.str) :
  writes (trace (read_pdf w file_path)) = []
  /\ truncated (trace (read_pdf w file_path)) = []
  /\ forall path before,
       content_after (trace (read_pdf w file_path)) path before = before.
Proof.
  destruct (open_pdf w file_path) as [r|e] eqn:H1.
  - destruct (pages r) as [ps|e] eqn:H2.
    + destruct (pages_split ps) as [[ts ->] | (before & e & after & ->)].
      * rewrite (read_pdf_good _ _ _ _ H1 H2). unfold trace, preamble.
        cbn [fst app writes truncated content_after].
        split; [apply writes_visits|]. split; [apply truncated_visits|].
        intros. apply content_after_visits.
      * rewrite (read_pdf_damaged _ _ _ _ _ _ H1 H2). unfold trace, preamble.
        cbn [fst app writes truncated content_after].
        rewrite writes_app, writes_visits, truncated_app, truncated_visits.
        split; [reflexivity|]. split; [reflexivity|].
        intros. now rewrite content_after_app, content_after_visits.
    + rewrite (read_pdf_bad_tree _ _ _ _ H1 H2). now repeat split.
  - rewrite (read_pdf_unopenable _ _ _ H1). now repeat split.
Qed.

Lemma read_pdf_opened (w : world) (file_path : Py.str) :
  opened (trace (read_pdf w file_path)) = [file_path].
Proof.
  destruct (open_pdf w file_path) as [r|e] eqn:H1.
  - destruct (pages r) as [ps|e] eqn:H2.
    + destruct (pages_split ps) as [[ts ->] | (before & e & after & ->)].
      * rewrite (read_pdf_good _ _ _ _ H1 H2). unfold trace, preamble.
        cbn [fst app opened]. now rewrite opened_visits.
      * rewrite (read_pdf_damaged _ _ _ _ _ _ H1 H2). unfold trace, preamble.
        cbn [fst app opened]. now rewrite opened_app, opened_visits.
    + now rewrite (read_pdf_bad_tree _ _ _ _ H1 H2).
  - now rewrite (read_pdf_unopenable _ _ _ H1).
Qed.



(** ** [str.replace] *)

Lemma lit_dot_pdf : Py.lit ".pdf" = [46; 112; 100; 102]%N.
Proof. reflexivity. Qed.

Lemma replace_from_cons (old new : Py.str) (c : Py.char) (rest : Py.str) :
  Py.replace_from old new 0 (c :: rest)
  = if Py.startswith old (c :: rest)
    then new ++ Py.replace_from old new (List.length old - 1) rest
    else c :: Py.replace_from old new 0 rest.
Proof. reflexivity. Qed.

(** The characters of a matched occurrence are passed over. *)
Lemma replace_from_skip (old new a b : Py.str) :
  Py.replace_from old new (List.length a) (a ++ b)
  = Py.replace_from old new 0 b.
Proof.
  induction a as [|c a IH]; simpl.
  - now destruct b.
  - exact IH.
Qed.

Lemma contains_cons (old : Py.str) (c : Py.char) (rest : Py.str) :
  Py.contains old (c :: rest)
  = Py.startswith old (c :: rest) || Py.contains old rest.
Proof. reflexivity. Qed.

(** Without an occurrence of [old] nothing changes. *)
Lemma replace_from_absent (old new s : Py.str) :
  Py.contains old s = false -> Py.replace_from old new 0 s = s.
Proof.
  induction s as [|c s IH]; intros H; [reflexivity|].
  rewrite contains_cons in H. apply orb_false_iff in H as [H1 H2].
  rewrite replace_from_cons, H1, (IH H2). reflexivity.
Qed.

Lemma replace_absent (old new s : Py.str) :
  Py.contains old s = false -> Py.replace old new s = s.
Proof.
  destruct old as [|a old]; intros H.
  - destruct s; discriminate H.
  - now apply replace_from_absent.
Qed.

(** No occurrence of [.pdf] starts inside [a] and ends inside a
    following [.pdf]: the dot occurs in [.pdf] at the front only. *)
Lemma pdf_no_straddle (c : Py.char) (a t : Py.str) :
  Py.startswith (Py.lit ".pdf") (c :: a) = false ->
  Py.startswith (Py.lit ".pdf") ((c :: a) ++ Py.lit ".pdf" ++ t) = false.
Proof.
  rewrite lit_dot_pdf.
  destruct a as [|c2 [|c3 [|c4 a]]]; cbn [Py.startswith app];
    repeat match goal with
           | |- context [N.eqb ?x ?y] => is_var y; destruct (N.eqb x y)
           end;
    intros H; first [reflexivity | discriminate H].
Qed.

(** The leftmost occurrence of [.pdf] is replaced and the scan goes on
    behind it. *)
Lemma replace_from_pdf (new a t : Py.str) :
  Py.contains (Py.lit ".pdf") a = false ->
  Py.replace_from (Py.lit ".pdf") new 0 (a ++ Py.lit ".pdf" ++ t)
  = a ++ new ++ Py.replace_from (Py.lit ".pdf") new 0 t.
Proof.
  induction a as [|c a IH]; intros H.
  - change ([] ++ Py.lit ".pdf" ++ t) with (46%N :: Py.lit "pdf" ++ t).
    rewrite replace_from_cons.
    change (Py.startswith (Py.lit ".pdf") (46%N :: Py.lit "pdf" ++ t)) with true.
    change (List.length (Py.lit ".pdf") - 1) with (List.length (Py.lit "pdf")).
    now rewrite replace_from_skip.
  - rewrite contains_cons in H. apply orb_false_iff in H as [H1 H2].
    change ((c :: a) ++ Py.lit ".pdf" ++ t) with (c :: (a ++ Py.lit ".pdf" ++ t)).
    rewrite replace_from_cons.
    change (c :: (a ++ Py.lit ".pdf" ++ t)) with ((c :: a) ++ Py.lit ".pdf" ++ t).
    rewrite (pdf_no_straddle _ _ _ H1), (IH H2). reflexivity.
Qed.

Lemma output_path_step (a t : Py.str) :
  Py.contains (Py.lit ".pdf") a = false ->
  output_path (a ++ Py.lit ".pdf" ++ t)
  = a ++ Py.lit "_extracted.txt" ++ output_path t.
Proof. intros H. unfold output_path, Py.replace. now apply replace_from_pdf. Qed.

Lemma output_path_absent (p : Py.str) :
  Py.contains (Py.lit ".pdf") p = false -> output_path p = p.
Proof. apply replace_absent. Qed.

Lemma output_path_stem (stem : Py.str) :
  Py.contains (Py.lit ".pdf") stem = false ->
  output_path (stem ++ Py.lit ".pdf") = stem ++ Py.lit "_extracted.txt".
Proof.
  intros H. rewrite <- (app_nil_r (Py.lit ".pdf")), (output_path_step _ _ H).
  reflexivity.
Qed.

Lemma startswith_app_l (p x y : Py.str) :
  Py.startswith p x = true -> Py.startswith p (x ++ y) = true.
Proof.
  revert x; induction p as [|c p IH]; intros [|d x]; simpl; intros H;
    try reflexivity; try discriminate H.
  apply andb_true_iff in H as [H1 H2]. now rewrite H1, (IH _ H2).
Qed.

Lemma startswith_split (p s : Py.str) :
  Py.startswith p s = true -> s = p ++ Py.slice_from (List.length p) s.
Proof.
  unfold Py.slice_from.
  revert s; induction p as [|c p IH]; intros [|d s]; simpl; intros H;
    try reflexivity; try discriminate H.
  apply andb_true_iff in H as [H1 H2]. apply N.eqb_eq in H1 as ->.
  f_equal. now apply IH.
Qed.

Lemma startswith_append (p t : Py.str) : Py.startswith p (p ++ t) = true.
Proof.
  induction p as [|c p IH]; simpl; [reflexivity|].
  now rewrite N.eqb_refl, IH.
Qed.

Lemma contains_startswith (old s : Py.str) :
  Py.startswith old s = true -> Py.contains old s = true.
Proof.
  intros H. destruct s; simpl; now rewrite H.
Qed.

Lemma contains_middle (x a b : Py.str) : Py.contains x (a ++ x ++ b) = true.
Proof.
  induction a as [|c a IH].
  - change ([] ++ x ++ b) with (x ++ b).
    apply contains_startswith, startswith_append.
  - change ((c :: a) ++ x ++ b) with (c :: (a ++ x ++ b)).
    rewrite contains_cons, IH. apply orb_true_r.
Qed.

(** The leftmost occurrence of a non-empty [old]. *)
Lemma contains_leftmost (old s : Py.str) :
  old <> [] ->
  Py.contains old s = true ->
  exists a t, s = a ++ old ++ t /\ Py.contains old a = false.
Proof.
  intros Hold. induction s as [|c s IH]; intros H.
  - destruct old; [now destruct Hold | discriminate H].
  - rewrite contains_cons in H.
    destruct (Py.startswith old (c :: s)) eqn:Hstart.
    + exists [], (Py.slice_from (List.length old) (c :: s)). split.
      * now apply startswith_split.
      * destruct old; [now destruct Hold | reflexivity].
    + destruct (IH H) as (a & t & -> & Ha). exists (c :: a), t.
      split; [reflexivity|]. rewrite contains_cons, Ha, orb_false_r.
      destruct (Py.startswith old (c :: a)) eqn:Hs; [|reflexivity].
      apply (startswith_app_l _ _ (old ++ t)) in Hs.
      change ((c :: a) ++ old ++ t) with (c :: (a ++ old ++ t)) in Hs.
      now rewrite Hs in Hstart.
Qed.

(** No occurrence of [.pdf] starts inside [a] and ends in a following
    underscore. *)
Lemma pdf_not_into_underscore (c : Py.char) (a z : Py.str) :
  Py.startswith (Py.lit ".pdf") (c :: a) = false ->
  Py.startswith (Py.lit ".pdf") ((c :: a) ++ 95%N :: z) = false.
Proof.
  rewrite lit_dot_pdf.
  destruct a as [|c2 [|c3 [|c4 a]]]; cbn [Py.startswith app];
    repeat match goal with
           | |- context [N.eqb ?x ?y] => is_var y; destruct (N.eqb x y)
           end;
    intros H; first [reflexivity | discriminate H].
Qed.

(** The replacement text brings no [.pdf] with it, nor with what
    stands before it. *)
Lemma contains_pdf_behind_new (a u : Py.str) :
  Py.contains (Py.lit ".pdf") a = false ->
  Py.contains (Py.lit ".pdf") (a ++ Py.lit "_extracted.txt" ++ u)
  = Py.contains (Py.lit ".pdf") u.
Proof.
  induction a as [|c a IH]; intros H.
  - destruct u; reflexivity.
  - rewrite contains_cons in H. apply orb_false_iff in H as [H1 H2].
    change ((c :: a) ++ Py.lit "_extracted.txt" ++ u)
      with (c :: (a ++ Py.lit "_extracted.txt" ++ u)).
    rewrite contains_cons, (IH H2).
    change (c :: (a ++ Py.lit "_extracted.txt" ++ u))
      with ((c :: a) ++ 95%N :: (Py.lit "extracted.txt" ++ u)).
    now rewrite (pdf_not_into_underscore _ _ _ H1).
Qed.

Lemma output_path_without_pdf (n : nat) :
  forall p, List.length p <= n -> Py.contains (Py.lit ".pdf") (output_path p) = false.
Proof.
  induction n as [|n IH]; intros p Hlen.
  - destruct p; [reflexivity | simpl in Hlen; lia].
  - destruct (Py.contains (Py.lit ".pdf") p) eqn:Hp.
    + destruct (contains_leftmost (Py.lit ".pdf") p) as (a & t & -> & Ha);
        [discriminate | exact Hp |].
      rewrite (output_path_step _ _ Ha), (contains_pdf_behind_new _ _ Ha).
      apply IH. rewrite !length_app in Hlen. rewrite lit_dot_pdf in Hlen.
      simpl in Hlen. lia.
    + now rewrite (output_path_absent _ Hp).
Qed.

(** ** The returned text *)

Lemma numbered_cons (first : nat) (t : Py.str) (ts : list Py.str) :
  numbered first (t :: ts) = (first, t) :: numbered (S first) ts.
Proof. reflexivity. Qed.

Lemma join_cons2 (sep x y : Py.str) (l : list Py.str) :
  Py.join sep (x :: y :: l) = x ++ sep ++ Py.join sep (y :: l).
Proof. reflexivity. Qed.

(** Joining [text_content] with newlines gives one block per page,
    the blocks separated by a newline. *)
Lemma join_entries (ts : list Py.str) :
  forall first,
    Py.join Py.nl (entries first ts)
    = Py.join Py.nl (map page_block (numbered first ts)).
Proof.
  induction ts as [|t ts IH]; intros first; [reflexivity|].
  rewrite entries_cons, numbered_cons, join_cons2. cbn [map].
  destruct ts as [|t' ts].
  - reflexivity.
  - specialize (IH (S first)). rewrite entries_cons in IH |- *.
    rewrite join_cons2, IH, numbered_cons. cbn [map]. rewrite join_cons2.
    unfold page_block. cbn [fst snd]. now rewrite <- !app_assoc.
Qed.

Lemma join_entries_nonempty (t : Py.str) (ts : list Py.str) :
  Py.join Py.nl (entries 1 (t :: ts)) <> [].
Proof.
  rewrite entries_cons, join_cons2. unfold page_header. discriminate.
Qed.

Lemma join_In (sep x : Py.str) (l : list Py.str) :
  In x l -> exists a b, Py.join sep l = a ++ x ++ b.
Proof.
  induction l as [|y l IH]; intros H; [destruct H|].
  destruct l as [|z l].
  - destruct H as [->|[]]. exists [], []. simpl. now rewrite app_nil_r.
  - rewrite join_cons2. destruct H as [->|H].
    + now exists [], (sep ++ Py.join sep (z :: l)).
    + destruct (IH H) as (a & b & ->). exists (y ++ sep ++ a), b.
      now rewrite <- !app_assoc.
Qed.

Lemma entries_In (ts : list Py.str) :
  forall first n t,
    nth_error ts n = Some t ->
    In (page_header (first + n)) (entries first ts) /\ In t (entries first ts).
Proof.
  induction ts as [|t0 ts IH]; intros first n t H.
  - destruct n; discriminate H.
  - rewrite entries_cons. destruct n as [|n].
    + injection H as ->. rewrite Nat.add_0_r. split; [now left | right; now left].
    + destruct (IH (S first) n t H) as [Hh Ht].
      rewrite Nat.add_succ_comm in Hh. split; right; right; assumption.
Qed.

(** ** Files after a run of [main] *)

Lemma main_saved_files (w : world) (prog pdf_path text : Py.str) :
  argv w = [prog; pdf_path] ->
  path_exists w pdf_path = true ->
  result (read_pdf w pdf_path) = Ret (Some text) ->
  text <> [] ->
  open_for_writing w (output_path pdf_path) = Gives tt ->
  Py.utf8_encodable text = true ->
  writes (trace (main w)) = [(output_path pdf_path, text)]
  /\ truncated (trace (main w)) = [output_path pdf_path]
  /\ forall before,
       content_after (trace (main w)) (output_path pdf_path) before = Some text.
Proof.
  intros Hargv Hex Hres Htext Hopen Henc.
  rewrite (main_saved _ _ _ _ Hargv Hex Hres Htext Hopen Henc), trace_pair.
  destruct (read_pdf_writes_nothing w pdf_path) as (Hw & Ht & Hc).
  rewrite writes_app, truncated_app, Hw, Ht. cbn [writes truncated app].
  rewrite writes_map_Print, truncated_map_Print.
  split; [reflexivity|]. split; [reflexivity|].
  intros before. rewrite content_after_app, Hc. cbn [content_after].
  now rewrite eqb_refl, content_after_map_Print.
Qed.

(** ** The claims *)

(** C1, as stated, fails: in the three-page document whose second page
    cannot be decoded [read_pdf] returns [None], so pages 1 and 3 yield
    no text, and page 3 is never processed. *)
Lemma C1_counterexample :
  result (read_pdf sample_three (Py.lit "doc.pdf")) = Ret None
  /\ extracted (trace (read_pdf sample_three (Py.lit "doc.pdf"))) = [1; 2]
  /\ ~ spec_partial_failure sample_three (Py.lit "doc.pdf").
Proof.
  repeat split; try reflexivity.
  intros H.
  destruct (H (reader_of three_pages) three_pages eq_refl eq_refl) as (text & Hres & _).
  discriminate Hres.
Qed.

(** C1, amended: a page whose content cannot be decoded aborts the
    extraction of the whole document.  When page k is the first page on
    which [extract_text] raises, [read_pdf] has called [extract_text] on
    pages 1..k only, prints the progress lines of these pages and then
    the line [Error reading PDF: <error>], and returns [None]: no
    page's text is returned.  The failure is not fatal for the caller,
    which gets a value and no exception. *)
Theorem C1_damaged_page_aborts_extraction
        (w : world) (file_path : Py.str) (r : PdfReader)
        (before : list Py.str) (e : Py.str) (after : list Page) :
  open_pdf w file_path = Gives r ->
  pages r = Gives (map good before ++ damaged e :: after) ->
  result (read_pdf w file_path) = Ret None
  /\ extracted (trace (read_pdf w file_path)) = seq 1 (S (List.length before))
  /\ printed (trace (read_pdf w file_path))
     = [Py.lit "Reading PDF: " ++ file_path;
        Py.lit "Number of pages: "
          ++ Py.str_of_nat (List.length before + S (List.length after));
        rule]
       ++ map progress_line (seq 1 (S (List.length before)))
       ++ [Py.lit "Error reading PDF: " ++ e].
Proof.
  intros Hopen Hpages. rewrite (read_pdf_damaged _ _ _ _ _ _ Hopen Hpages).
  unfold result, trace, preamble. cbn [fst snd]. split; [reflexivity|].
  split.
  - cbn [app extracted]. rewrite extracted_app, extracted_visits.
    cbn [extracted]. now rewrite app_nil_r.
  - cbn [app printed]. rewrite printed_app, printed_visits. reflexivity.
Qed.

Lemma C1_witness :
  open_pdf sample_three (Py.lit "doc.pdf") = Gives (reader_of three_pages)
  /\ pages (reader_of three_pages)
     = Gives (map good [Py.lit "one"]
              ++ damaged (Py.lit "unsupported filter FlateDecodeX")
              :: [good (Py.lit "three")])
  /\ result (read_pdf sample_three (Py.lit "doc.pdf")) = Ret None
  /\ extracted (trace (read_pdf sample_three (Py.lit "doc.pdf"))) = seq 1 2
  /\ printed (trace (read_pdf sample_three (Py.lit "doc.pdf")))
     = [Py.lit "Reading PDF: " ++ Py.lit "doc.pdf";
        Py.lit "Number of pages: " ++ Py.str_of_nat (1 + 2);
        rule]
       ++ map progress_line (seq 1 2)
       ++ [Py.lit "Error reading PDF: " ++ Py.lit "unsupported filter FlateDecodeX"].
Proof.
  split; [reflexivity|]. split; [reflexivity|].
  apply (C1_damaged_page_aborts_extraction
           sample_three (Py.lit "doc.pdf") (reader_of three_pages)
           [Py.lit "one"] (Py.lit "unsupported filter FlateDecodeX")
           [good (Py.lit "three")]);
    reflexivity.
Defined.

(** C4, as stated, fails: for the one-page document with text [A] the
    returned text has a newline between the separator of page 1 and the
    text of page 1. *)
Lemma C4_counterexample :
  result (read_pdf sample_one (Py.lit "a.pdf"))
  = Ret (Some (page_header 1 ++ Py.nl ++ Py.lit "A"))
  /\ spec_concatenation [Py.lit "A"] = page_header 1 ++ Py.lit "A"
  /\ result (read_pdf sample_one (Py.lit "a.pdf"))
     <> Ret (Some (spec_concatenation [Py.lit "A"])).
Proof.
  repeat split; try reflexivity.
  intros H. vm_compute in H. discriminate H.
Qed.

(** C4, amended: for a document with pages 1..n whose texts are
    t1..tn, [read_pdf] returns the blocks of the pages in page order,
    two consecutive blocks separated by one newline; the block of page
    i is the separator [\n--- PAGE i ---\n], then one newline (the
    string [join] puts between two items of the list), then ti. *)
Theorem C4_returned_text_layout
        (w : world) (file_path : Py.str) (r : PdfReader) (ts : list Py.str) :
  open_pdf w file_path = Gives r ->
  pages r = Gives (map good ts) ->
  result (read_pdf w file_path)
  = Ret (Some (Py.join Py.nl
                 (map (fun nt =>
                         (Py.nl ++ Py.lit "--- PAGE " ++ Py.str_of_nat (fst nt)
                                ++ Py.lit " ---" ++ Py.nl)
                         ++ Py.nl ++ snd nt)
                      (combine (seq 1 (List.length ts)) ts)))).
Proof.
  intros Hopen Hpages. rewrite (read_pdf_good _ _ _ _ Hopen Hpages).
  unfold result. cbn [snd]. rewrite join_entries. reflexivity.
Qed.

Lemma C4_witness :
  open_pdf sample_cv (Py.lit "cv.pdf") = Gives (reader_of (map good cv_pages))
  /\ pages (reader_of (map good cv_pages)) = Gives (map good cv_pages)
  /\ result (read_pdf sample_cv (Py.lit "cv.pdf"))
     = Ret (Some (Py.join Py.nl
                    (map (fun nt =>
                            (Py.nl ++ Py.lit "--- PAGE " ++ Py.str_of_nat (fst nt)
                                   ++ Py.lit " ---" ++ Py.nl)
                            ++ Py.nl ++ snd nt)
                         (combine (seq 1 (List.length cv_pages)) cv_pages)))).
Proof.
  split; [reflexivity|]. split; [reflexivity|].
  apply (C4_returned_text_layout sample_cv (Py.lit "cv.pdf")
           (reader_of (map good cv_pages)) cv_pages);
    reflexivity.
Defined.

(** C7, as stated, fails: in the three-page document whose second page
    cannot be decoded, [extract_text] is called on pages 1 and 2 only,
    and page 3 has no progress line. *)
Lemma C7_counterexample :
  extracted (trace (read_pdf sample_three (Py.lit "doc.pdf"))) = [1; 2]
  /\ printed (trace (read_pdf sample_three (Py.lit "doc.pdf")))
     = [Py.lit "Reading PDF: doc.pdf"; Py.lit "Number of pages: 3"; rule;
        Py.lit "Processing page 1..."; Py.lit "Processing page 2...";
        Py.lit "Error reading PDF: unsupported filter FlateDecodeX"]
  /\ ~ spec_all_pages_visited sample_three (Py.lit "doc.pdf").
Proof.
  repeat split; try reflexivity.
  intros H.
  destruct (H (reader_of three_pages) three_pages eq_refl eq_refl) as [Hseq _].
  discriminate Hseq.
Qed.

(** C7, amended: extraction opens the file, prints the total page count
    once and then visits the pages in document order, page numbers
    1, 2, ... in increasing order, printing the progress line of a page
    just before [extract_text] is called on it.  When no page raises,
    all n pages are visited and [text_content] is the sequence of the
    pairs (separator of page i, text of page i) for i = 1..n.  When
    some page raises, the visit stops at the first such page: the pages
    behind it have no progress line and no pair is produced.  One of
    the two cases always applies. *)
Theorem C7_pages_visited_in_order
        (w : world) (file_path : Py.str) (r : PdfReader) (ps : list Page) :
  open_pdf w file_path = Gives r ->
  pages r = Gives ps ->
  (forall ts,
      ps = map good ts ->
      trace (read_pdf w file_path)
      = [OpenRead file_path;
         Print (Py.lit "Reading PDF: " ++ file_path);
         Print (Py.lit "Number of pages: " ++ Py.str_of_nat (List.length ps));
         Print rule]
        ++ flat_map (fun n => [Print (progress_line n); ExtractText n])
                    (seq 1 (List.length ps))
      /\ result (read_pdf w file_path)
         = Ret (Some (Py.join Py.nl
                        (flat_map (fun nt => [page_header (fst nt); snd nt])
                                  (combine (seq 1 (List.length ps)) ts)))))
  /\ (forall before e after,
         ps = map good before ++ damaged e :: after ->
         trace (read_pdf w file_path)
         = [OpenRead file_path;
            Print (Py.lit "Reading PDF: " ++ file_path);
            Print (Py.lit "Number of pages: " ++ Py.str_of_nat (List.length ps));
            Print rule]
           ++ flat_map (fun n => [Print (progress_line n); ExtractText n])
                       (seq 1 (S (List.length before)))
           ++ [Print (Py.lit "Error reading PDF: " ++ e)]
         /\ result (read_pdf w file_path) = Ret None)
  /\ ((exists ts, ps = map good ts)
      \/ (exists before e after, ps = map good before ++ damaged e :: after)).
Proof.
  intros Hopen Hpages. split; [|split].
  - intros ts ->. rewrite (read_pdf_good _ _ _ _ Hopen Hpages).
    rewrite length_map. split; reflexivity.
  - intros before e after ->. rewrite (read_pdf_damaged _ _ _ _ _ _ Hopen Hpages).
    rewrite length_app, length_map. split; reflexivity.
  - apply pages_split.
Qed.

Lemma C7_witness :
  open_pdf sample_cv (Py.lit "cv.pdf") = Gives (reader_of (map good cv_pages))
  /\ pages (reader_of (map good cv_pages)) = Gives (map good cv_pages)
  /\ trace (read_pdf sample_cv (Py.lit "cv.pdf"))
     = [OpenRead (Py.lit "cv.pdf");
        Print (Py.lit "Reading PDF: cv.pdf");
        Print (Py.lit "Number of pages: 2");
        Print rule;
        Print (Py.lit "Processing page 1..."); ExtractText 1;
        Print (Py.lit "Processing page 2..."); ExtractText 2]
  /\ result (read_pdf sample_cv (Py.lit "cv.pdf"))
     = Ret (Some (Py.join Py.nl
                    [page_header 1; Py.lit "Ada"; page_header 2; Py.lit "Lovelace"])).
Proof.
  split; [reflexivity|]. split; [reflexivity|].
  exact (proj1 (C7_pages_visited_in_order
                  sample_cv (Py.lit "cv.pdf") (reader_of (map good cv_pages))
                  (map good cv_pages) eq_refl eq_refl)
               cv_pages eq_refl).
Defined.


(** C5: when the path on the command line does not name an existing
    file, [main] prints [File not found: <path>] and leaves with exit
    status 1; nothing else happens: the file is not opened, no page is
    extracted, no file is written. *)
Theorem C5_missing_input_file (w : world) (prog pdf_path : Py.str) :
  argv w = [prog; pdf_path] ->
  path_exists w pdf_path = false ->
  trace (main w) = [Print (Py.lit "File not found: " ++ pdf_path)]
  /\ exit_status (main w) = 1
  /\ exit_status (main w) <> 0
  /\ extracted (trace (main w)) = []
  /\ writes (trace (main w)) = [].
Proof.
  intros Hargv Hex. rewrite (main_missing _ _ _ Hargv Hex).
  repeat split; try reflexivity. discriminate.
Qed.

Lemma C5_witness :
  argv sample_missing = [prog; Py.lit "nowhere.pdf"]
  /\ path_exists sample_missing (Py.lit "nowhere.pdf") = false
  /\ trace (main sample_missing)
     = [Print (Py.lit "File not found: " ++ Py.lit "nowhere.pdf")]
  /\ exit_status (main sample_missing) = 1
  /\ exit_status (main sample_missing) <> 0
  /\ extracted (trace (main sample_missing)) = []
  /\ writes (trace (main sample_missing)) = [].
Proof.
  split; [reflexivity|]. split; [reflexivity|].
  apply (C5_missing_input_file sample_missing prog (Py.lit "nowhere.pdf"));
    reflexivity.
Defined.

(** C2, on the code: when [read_pdf] returns [None] or the empty
    string, [main] prints [Failed to extract text from PDF] and then
    ends normally, so the exit status is 0 and not, as the claim has
    it, non-zero. *)
Theorem C2_failed_extraction_exit_status
        (w : world) (prog pdf_path : Py.str) (content : option Py.str) :
  argv w = [prog; pdf_path] ->
  path_exists w pdf_path = true ->
  result (read_pdf w pdf_path) = Ret content ->
  content = None \/ content = Some [] ->
  printed (trace (main w))
  = printed (trace (read_pdf w pdf_path)) ++ [Py.lit "Failed to extract text from PDF"]
  /\ result (main w) = Ret tt
  /\ exit_status (main w) = 0.
Proof.
  intros Hargv Hex Hres Hcontent.
  assert (Hfalse : Py.truthy content = false) by (destruct Hcontent; now subst).
  rewrite (main_failure _ _ _ _ Hargv Hex Hres Hfalse).
  unfold trace at 1. cbn [fst]. rewrite printed_app. repeat split.
Qed.

Lemma C2_witness :
  argv sample_broken = [prog; Py.lit "broken.pdf"]
  /\ path_exists sample_broken (Py.lit "broken.pdf") = true
  /\ result (read_pdf sample_broken (Py.lit "broken.pdf")) = Ret None
  /\ printed (trace (main sample_broken))
     = [Py.lit "Error reading PDF: EOF marker not found";
        Py.lit "Failed to extract text from PDF"]
  /\ result (main sample_broken) = Ret tt
  /\ exit_status (main sample_broken) = 0.
Proof.
  split; [reflexivity|]. split; [reflexivity|]. split; [reflexivity|].
  apply (C2_failed_extraction_exit_status
           sample_broken prog (Py.lit "broken.pdf") None);
    first [reflexivity | now left].
Defined.



(** C3, on the code: for the input [archive.pdfs/cv.pdf] the claim
    names the output file [archive.pdfs/cv_extracted.txt], while
    [replace] also rewrites the [.pdf] of the directory name and
    [main] opens [archive_extracted.txts/cv_extracted.txt].  There is
    no such directory: [open] raises, nothing is written and the run
    ends with exit status 1.  Were there such a directory, the text
    would go to the file in it and not to the file the claim names. *)
Theorem C3_directory_name_rewritten :
  Py.replace (Py.lit ".pdf") (Py.lit "_extracted.txt") (Py.lit "archive.pdfs/cv.pdf")
  = Py.lit "archive_extracted.txts/cv_extracted.txt"
  /\ spec_output_path (Py.lit "archive.pdfs/cv.pdf")
     = Py.lit "archive.pdfs/cv_extracted.txt"
  /\ result (read_pdf sample_nested (Py.lit "archive.pdfs/cv.pdf")) = Ret (Some ada_text)
  /\ result (main sample_nested) = Raise (Py.lit "[Errno 2] No such file or directory")
  /\ exit_status (main sample_nested) = 1
  /\ truncated (trace (main sample_nested)) = []
  /\ writes (trace (main sample_nested)) = []
  /\ writes (trace (main sample_nested_dir))
     = [(Py.lit "archive_extracted.txts/cv_extracted.txt", ada_text)]
  /\ content_after (trace (main sample_nested_dir))
                   (spec_output_path (Py.lit "archive.pdfs/cv.pdf")) None
     = None.
Proof.
  split; [reflexivity|]. split; [reflexivity|]. split; [reflexivity|].
  split; [reflexivity|]. split; [reflexivity|]. split; [reflexivity|].
  split; [reflexivity|]. split; reflexivity.
Qed.




(** A text of 2117 characters: 2000 of them are printed, then [...]. *)
Example long_text_preview :
  List.length long_text = 2117
  /\ nth 7 (printed (trace (main sample_long))) []
     = page_header 1 ++ Py.nl ++ Py.times (Py.lit "x") 1983
  /\ nth 8 (printed (trace (main sample_long))) [] = Py.lit "...".
Proof. vm_compute. repeat split. Qed.

(** A text of 1517 characters, 1500 of them euro signs that take three
    bytes each in UTF-8: characters are counted, not bytes, so the
    whole text is printed and no [...] follows. *)
Example euro_text_preview :
  result (read_pdf sample_euro (Py.lit "euro.pdf")) = Ret (Some euro_text)
  /\ List.length euro_text = 1517
  /\ nth 7 (printed (trace (main sample_euro))) [] = euro_text
  /\ nth 8 (printed (trace (main sample_euro))) Py.nl = Py.lit "".
Proof. vm_compute. repeat split. Qed.

(** A text with a lone surrogate: the output file is created and left
    empty, and the exception of [f.write] ends the run. *)
Example surrogate_text_run :
  truncated (trace (main sample_surrogate)) = [Py.lit "odd_extracted.txt"]
  /\ writes (trace (main sample_surrogate)) = []
  /\ content_after (trace (main sample_surrogate)) (Py.lit "odd_extracted.txt") None
     = Some []
  /\ result (main sample_surrogate) = Raise encode_error
  /\ exit_status (main sample_surrogate) = 1.
Proof. vm_compute. repeat split. Qed.

Lemma main_unwritable_files (w : world) (prog pdf_path text e : Py.str) :
  argv w = [prog; pdf_path] ->
  path_exists w pdf_path = true ->
  result (read_pdf w pdf_path) = Ret (Some text) ->
  text <> [] ->
  open_for_writing w (output_path pdf_path) = Fails e ->
  writes (trace (main w)) = []
  /\ truncated (trace (main w)) = []
  /\ (forall path before, content_after (trace (main w)) path before = before)
  /\ result (main w) = Raise e.
Proof.
  intros Hargv Hex Hres Htext Hopen.
  rewrite (main_unwritable _ _ _ _ _ Hargv Hex Hres Htext Hopen), trace_pair.
  destruct (read_pdf_writes_nothing w pdf_path) as (Hw & Ht & Hc).
  now repeat split.
Qed.

Lemma main_unencodable_files (w : world) (prog pdf_path text : Py.str) :
  argv w = [prog; pdf_path] ->
  path_exists w pdf_path = true ->
  result (read_pdf w pdf_path) = Ret (Some text) ->
  text <> [] ->
  open_for_writing w (output_path pdf_path) = Gives tt ->
  Py.utf8_encodable text = false ->
  writes (trace (main w)) = []
  /\ truncated (trace (main w)) = [output_path pdf_path]
  /\ (forall before,
         content_after (trace (main w)) (output_path pdf_path) before = Some [])
  /\ result (main w) = Raise encode_error.
Proof.
  intros Hargv Hex Hres Htext Hopen Henc.
  rewrite (main_unencodable _ _ _ _ Hargv Hex Hres Htext Hopen Henc), trace_pair.
  destruct (read_pdf_writes_nothing w pdf_path) as (Hw & Ht & Hc).
  rewrite writes_app, truncated_app, Hw, Ht. cbn [writes truncated app].
  split; [reflexivity|]. split; [reflexivity|]. split; [|reflexivity].
  intros before. rewrite content_after_app, Hc. cbn [content_after].
  now rewrite eqb_refl.
Qed.

(** C9, as stated, fails: the PDF stored as [scan] has no [.pdf] in
    its path and extraction succeeds, but the file is read-only: the
    [open] for writing raises, the input file is not touched and the
    run ends with exit status 1. *)
Lemma C9_counterexample :
  Py.contains (Py.lit ".pdf") (Py.lit "scan") = false
  /\ result (read_pdf sample_plain_locked (Py.lit "scan")) = Ret (Some ada_text)
  /\ truncated (trace (main sample_plain_locked)) = []
  /\ writes (trace (main sample_plain_locked)) = []
  /\ exit_status (main sample_plain_locked) = 1
  /\ ~ spec_input_overwritten sample_plain_locked (Py.lit "scan").
Proof.
  do 5 (split; [reflexivity|]).
  intros H. specialize (H ada_text None eq_refl).
  assert (Hne : ada_text <> []) by discriminate.
  specialize (H Hne eq_refl). discriminate H.
Qed.

(** C9, amended: the output path is the input path with every
    occurrence of [.pdf] replaced by [_extracted.txt] ([replace]
    rewrites the leftmost occurrence and goes on behind it).  For an
    input path without [.pdf] the output path is the input path, and
    after a successful extraction [main] opens the input file itself
    for writing.  When this [open] raises, the input file is not
    touched and the run ends with the exception.  When it returns, the
    input file is emptied; it then holds the extracted text when the
    text can be encoded in UTF-8, and stays empty, the run ending with
    the exception of [f.write], when it cannot. *)
Theorem C9_output_path_aliasing
        (w : world) (prog pdf_path text : Py.str) :
  argv w = [prog; pdf_path] ->
  path_exists w pdf_path = true ->
  result (read_pdf w pdf_path) = Ret (Some text) ->
  text <> [] ->
  (forall a t,
      Py.contains (Py.lit ".pdf") a = false ->
      Py.replace (Py.lit ".pdf") (Py.lit "_extracted.txt") (a ++ Py.lit ".pdf" ++ t)
      = a ++ Py.lit "_extracted.txt"
          ++ Py.replace (Py.lit ".pdf") (Py.lit "_extracted.txt") t)
  /\ (Py.contains (Py.lit ".pdf") pdf_path = false ->
      Py.replace (Py.lit ".pdf") (Py.lit "_extracted.txt") pdf_path = pdf_path
      /\ (forall e,
             open_for_writing w pdf_path = Fails e ->
             result (main w) = Raise e
             /\ truncated (trace (main w)) = []
             /\ writes (trace (main w)) = []
             /\ forall before, content_after (trace (main w)) pdf_path before = before)
      /\ (open_for_writing w pdf_path = Gives tt ->
          truncated (trace (main w)) = [pdf_path]
          /\ (Py.utf8_encodable text = true ->
              writes (trace (main w)) = [(pdf_path, text)]
              /\ forall before,
                   content_after (trace (main w)) pdf_path before = Some text)
          /\ (Py.utf8_encodable text = false ->
              writes (trace (main w)) = []
              /\ (forall before,
                     content_after (trace (main w)) pdf_path before = Some [])
              /\ result (main w) = Raise encode_error))).
Proof.
  intros Hargv Hex Hres Htext. split; [exact output_path_step|].
  intros Habsent. pose proof (output_path_absent _ Habsent) as Hout.
  split; [exact Hout|]. split.
  - intros e Hopen. rewrite <- Hout in Hopen.
    destruct (main_unwritable_files _ _ _ _ _ Hargv Hex Hres Htext Hopen)
      as (Hw & Ht & Hc & Hr).
    repeat split; try assumption. intros before. apply Hc.
  - intros Hopen. rewrite <- Hout in Hopen.
    destruct (Py.utf8_encodable text) eqn:Henc.
    + destruct (main_saved_files _ _ _ _ Hargv Hex Hres Htext Hopen Henc)
        as (Hw & Ht & Hc).
      rewrite Hout in Hw, Ht, Hc. split; [exact Ht|].
      split; [intros _; now split | discriminate].
    + destruct (main_unencodable_files _ _ _ _ Hargv Hex Hres Htext Hopen Henc)
        as (Hw & Ht & Hc & Hr).
      rewrite Hout in Ht, Hc. split; [exact Ht|].
      split; [discriminate | intros _; now repeat split].
Qed.

Lemma C9_witness :
  argv sample_plain = [prog; Py.lit "scan"]
  /\ path_exists sample_plain (Py.lit "scan") = true
  /\ result (read_pdf sample_plain (Py.lit "scan")) = Ret (Some ada_text)
  /\ ada_text <> []
  /\ Py.contains (Py.lit ".pdf") (Py.lit "scan") = false
  /\ open_for_writing sample_plain (Py.lit "scan") = Gives tt
  /\ Py.utf8_encodable ada_text = true
  /\ writes (trace (main sample_plain)) = [(Py.lit "scan", ada_text)]
  /\ forall before,
       content_after (trace (main sample_plain)) (Py.lit "scan") before = Some ada_text.
Proof.
  do 3 (split; [reflexivity|]). split; [discriminate|].
  do 3 (split; [reflexivity|]).
  assert (Hne : ada_text <> []) by discriminate.
  destruct (C9_output_path_aliasing sample_plain prog (Py.lit "scan") ada_text
              eq_refl eq_refl eq_refl Hne) as [_ H].
  destruct (H eq_refl) as (_ & _ & Hopen).
  destruct (Hopen eq_refl) as (_ & Hsaved & _).
  exact (Hsaved eq_refl).
Defined.

(** ** Further properties of the script *)

(** *** The argument check *)

(** X1: with any number of command-line arguments other than one path,
    [main] prints the usage line and leaves with exit status 1 before it
    looks at the file system: nothing is opened, extracted or written,
    whatever files exist. *)
Theorem X1_usage_error (w : world) :
  List.length (argv w) <> 2 ->
  trace (main w) = [Print (Py.lit "Usage: python pdf_reader.py <pdf_file_path>")]
  /\ exit_status (main w) = 1
  /\ opened (trace (main w)) = []
  /\ extracted (trace (main w)) = []
  /\ writes (trace (main w)) = [].
Proof.
  intros H. rewrite (main_usage _ H). repeat split.
Qed.

Lemma X1_witness :
  List.length (argv sample_two_arguments) <> 2
  /\ trace (main sample_two_arguments)
     = [Print (Py.lit "Usage: python pdf_reader.py <pdf_file_path>")]
  /\ exit_status (main sample_two_arguments) = 1
  /\ opened (trace (main sample_two_arguments)) = []
  /\ extracted (trace (main sample_two_arguments)) = []
  /\ writes (trace (main sample_two_arguments)) = [].
Proof.
  split; [discriminate|].
  apply (X1_usage_error sample_two_arguments). discriminate.
Defined.

(** *** What [read_pdf] returns *)

(** X2: [read_pdf] returns a text that counts as content (a non-empty
    string) exactly when the file opens, its page tree reads, it has at
    least one page and [extract_text] raises on no page.  The texts of
    the pages play no part: a document of blank pages has content, its
    separators. *)
Theorem X2_content_criterion (w : world) (file_path : Py.str) :
  (exists content,
      result (read_pdf w file_path) = Ret content /\ Py.truthy content = true)
  <-> (exists r t ts,
          open_pdf w file_path = Gives r /\ pages r = Gives (map good (t :: ts))).
Proof.
  split.
  - intros (content & Hres & Htrue).
    destruct (open_pdf w file_path) as [r|e] eqn:H1.
    + destruct (pages r) as [ps|e] eqn:H2.
      * destruct (pages_split ps) as [[ts ->] | (before & e & after & ->)].
        -- destruct ts as [|t ts]; [|now exists r, t, ts].
           rewrite (read_pdf_good _ _ _ [] H1 H2) in Hres.
           injection Hres as <-. discriminate Htrue.
        -- rewrite (read_pdf_damaged _ _ _ _ _ _ H1 H2) in Hres.
           injection Hres as <-. discriminate Htrue.
      * rewrite (read_pdf_bad_tree _ _ _ _ H1 H2) in Hres.
        injection Hres as <-. discriminate Htrue.
    + rewrite (read_pdf_unopenable _ _ _ H1) in Hres.
      injection Hres as <-. discriminate Htrue.
  - intros (r & t & ts & H1 & H2).
    rewrite (read_pdf_good _ _ _ _ H1 H2). eexists. split; [reflexivity|].
    pose proof (join_entries_nonempty t ts) as Hne.
    destruct (Py.join Py.nl (entries 1 (t :: ts))); [now destruct Hne | reflexivity].
Qed.

(** Two blank pages: the separators alone are content, and are
    written. *)
Example blank_pages_are_written :
  writes (trace (main sample_blank))
  = [(Py.lit "blank_extracted.txt",
      page_header 1 ++ Py.nl ++ Py.nl ++ page_header 2 ++ Py.nl)].
Proof. vm_compute. reflexivity. Qed.

(** X3: when [extract_text] raises on no page, nothing is lost: the
    returned text holds the text of every page, and the separator of
    every page. *)
Theorem X3_every_page_in_the_text
        (w : world) (file_path : Py.str) (r : PdfReader)
        (ts : list Py.str) (n : nat) (t : Py.str) :
  open_pdf w file_path = Gives r ->
  pages r = Gives (map good ts) ->
  nth_error ts n = Some t ->
  exists text,
    result (read_pdf w file_path) = Ret (Some text)
    /\ Py.contains t text = true
    /\ Py.contains (page_header (S n)) text = true.
Proof.
  intros H1 H2 Hn. rewrite (read_pdf_good _ _ _ _ H1 H2).
  eexists. split; [reflexivity|].
  destruct (entries_In ts 1 n t Hn) as [Hh Ht].
  split.
  - destruct (join_In Py.nl _ _ Ht) as (a & b & ->). apply contains_middle.
  - destruct (join_In Py.nl _ _ Hh) as (a & b & ->). apply contains_middle.
Qed.

Lemma X3_witness :
  open_pdf sample_cv (Py.lit "cv.pdf") = Gives (reader_of (map good cv_pages))
  /\ pages (reader_of (map good cv_pages)) = Gives (map good cv_pages)
  /\ nth_error cv_pages 1 = Some (Py.lit "Lovelace")
  /\ exists text,
       result (read_pdf sample_cv (Py.lit "cv.pdf")) = Ret (Some text)
       /\ Py.contains (Py.lit "Lovelace") text = true
       /\ Py.contains (page_header 2) text = true.
Proof.
  do 3 (split; [reflexivity|]).
  apply (X3_every_page_in_the_text
           sample_cv (Py.lit "cv.pdf") (reader_of (map good cv_pages))
           cv_pages 1 (Py.lit "Lovelace"));
    reflexivity.
Defined.

(** *** Failures before the first page *)

(** X4: for a file that exists and cannot be opened as a PDF ([open] or
    [PdfReader] raises), the whole console output of [main] is the
    error of PyPDF2 and the failure line; the heading [Reading PDF:] is
    not printed, no page is processed and no file is written. *)
Theorem X4_unopenable_file (w : world) (prog pdf_path e : Py.str) :
  argv w = [prog; pdf_path] ->
  path_exists w pdf_path = true ->
  open_pdf w pdf_path = Fails e ->
  trace (main w)
  = [OpenRead pdf_path;
     Print (Py.lit "Error reading PDF: " ++ e);
     Print (Py.lit "Failed to extract text from PDF")]
  /\ result (main w) = Ret tt.
Proof.
  intros Hargv Hex Hopen.
  pose proof (read_pdf_unopenable _ _ _ Hopen) as Hread.
  assert (Hres : result (read_pdf w pdf_path) = Ret None) by now rewrite Hread.
  rewrite (main_failure _ _ _ _ Hargv Hex Hres eq_refl), Hread. split; reflexivity.
Qed.

Lemma X4_witness :
  argv sample_broken = [prog; Py.lit "broken.pdf"]
  /\ path_exists sample_broken (Py.lit "broken.pdf") = true
  /\ open_pdf sample_broken (Py.lit "broken.pdf") = Fails (Py.lit "EOF marker not found")
  /\ trace (main sample_broken)
     = [OpenRead (Py.lit "broken.pdf");
        Print (Py.lit "Error reading PDF: " ++ Py.lit "EOF marker not found");
        Print (Py.lit "Failed to extract text from PDF")]
  /\ result (main sample_broken) = Ret tt.
Proof.
  do 3 (split; [reflexivity|]).
  apply (X4_unopenable_file sample_broken prog (Py.lit "broken.pdf")); reflexivity.
Defined.

(** X5: when the reader is built and its page tree cannot be read,
    [read_pdf] has already printed the heading [Reading PDF: <path>];
    the page count and the rule are not printed (the count is computed
    before the line holding it is printed), the error line follows and
    the result is [None]. *)
Theorem X5_unreadable_page_tree
        (w : world) (file_path e : Py.str) (r : PdfReader) :
  open_pdf w file_path = Gives r ->
  pages r = Fails e ->
  printed (trace (read_pdf w file_path))
  = [Py.lit "Reading PDF: " ++ file_path; Py.lit "Error reading PDF: " ++ e]
  /\ extracted (trace (read_pdf w file_path)) = []
  /\ result (read_pdf w file_path) = Ret None.
Proof.
  intros H1 H2. rewrite (read_pdf_bad_tree _ _ _ _ H1 H2). repeat split.
Qed.

Lemma X5_witness :
  open_pdf sample_bad_tree (Py.lit "tree.pdf")
  = Gives {| pages := Fails (Py.lit "Cannot find Root object in pdf") |}
  /\ pages {| pages := Fails (Py.lit "Cannot find Root object in pdf") |}
     = Fails (Py.lit "Cannot find Root object in pdf")
  /\ printed (trace (read_pdf sample_bad_tree (Py.lit "tree.pdf")))
     = [Py.lit "Reading PDF: " ++ Py.lit "tree.pdf";
        Py.lit "Error reading PDF: " ++ Py.lit "Cannot find Root object in pdf"]
  /\ extracted (trace (read_pdf sample_bad_tree (Py.lit "tree.pdf"))) = []
  /\ result (read_pdf sample_bad_tree (Py.lit "tree.pdf")) = Ret None.
Proof.
  do 2 (split; [reflexivity|]).
  apply (X5_unreadable_page_tree sample_bad_tree (Py.lit "tree.pdf")
           (Py.lit "Cannot find Root object in pdf")
           {| pages := Fails (Py.lit "Cannot find Root object in pdf") |});
    reflexivity.
Defined.

(** *** What the script touches *)


(** X7: in every run [main] opens at most one file for reading, the
    path given on the command line, and only when [os.path.exists]
    holds of it.  It opens a file for writing, emptying it, exactly
    when there is one path argument, the path exists, [read_pdf]
    returned a non-empty text and the [open] of the output path
    returned; this file is the output path and no other.  It stores a
    text exactly when, in addition, the text can be encoded in UTF-8,
    and the text stored is the text [read_pdf] returned, in the output
    path and nowhere else. *)
Theorem X7_main_footprint (w : world) :
  let pdf_path := nth 1 (argv w) [] in
  let output_file := Py.replace (Py.lit ".pdf") (Py.lit "_extracted.txt") pdf_path in
  let saving text :=
    List.length (argv w) = 2
    /\ path_exists w pdf_path = true
    /\ result (read_pdf w pdf_path) = Ret (Some text)
    /\ text <> []
    /\ open_for_writing w output_file = Gives tt in
  (opened (trace (main w)) = []
   \/ (opened (trace (main w)) = [pdf_path] /\ path_exists w pdf_path = true))
  /\ (truncated (trace (main w)) = []
      \/ truncated (trace (main w)) = [output_file])
  /\ (truncated (trace (main w)) = [output_file] <-> exists text, saving text)
  /\ (writes (trace (main w)) = []
      \/ exists text, writes (trace (main w)) = [(output_file, text)])
  /\ (forall text,
         writes (trace (main w)) = [(output_file, text)]
         <-> saving text /\ Py.utf8_encodable text = true).
Proof.
  cbv zeta. fold (output_path (nth 1 (argv w) [])).
  destruct (argv w) as [|prog [|pdf_path [|extra rest]]] eqn:Hargv;
    try (rewrite (main_usage w) by (rewrite Hargv; discriminate);
         rewrite trace_pair; cbn [opened truncated writes List.length];
         repeat split; try (now left); try discriminate;
         try (intros (text & H & _); discriminate H);
         try (intros [(H & _) _]; discriminate H)).
  cbn [nth List.length].
  destruct (path_exists w pdf_path) eqn:Hex.
  2:{ rewrite (main_missing _ _ _ Hargv Hex), trace_pair.
      cbn [opened truncated writes].
      repeat split; try (now left); try discriminate.
      - intros (text & _ & H & _). discriminate H.
      - intros [(_ & H & _) _]. discriminate H. }
  destruct (read_pdf_returns w pdf_path) as [content Hres].
  destruct (read_pdf_writes_nothing w pdf_path) as (Hw0 & Ht0 & _).
  assert (Hreads : forall tr o,
             main w = (trace (read_pdf w pdf_path) ++ tr, o) ->
             opened tr = [] ->
             opened (trace (main w)) = [] \/
             opened (trace (main w)) = [pdf_path] /\ true = true).
  { intros tr o -> Htr. right. split; [|reflexivity].
    now rewrite trace_pair, opened_app, read_pdf_opened, Htr. }
  destruct (Py.truthy content) eqn:Htruthy.
  - destruct content as [[|c text0]|]; try discriminate Htruthy.
    assert (Htext : c :: text0 <> []) by discriminate.
    destruct (open_for_writing w (output_path pdf_path)) as [[]|e] eqn:Hopen.
    + destruct (Py.utf8_encodable (c :: text0)) eqn:Henc.
      * destruct (main_saved_files _ _ _ _ Hargv Hex Hres Htext Hopen Henc)
          as (Hw & Ht & _).
        split.
        { apply (Hreads _ _ (main_saved _ _ _ _ Hargv Hex Hres Htext Hopen Henc)).
          cbn [opened]. apply opened_map_Print. }
        rewrite Hw, Ht. split; [now right|]. split.
        { split; [intros _ | reflexivity]. now exists (c :: text0). }
        split; [right; now exists (c :: text0)|].
        intros text. split.
        -- intros [= <-]. now repeat split.
        -- intros [(_ & _ & H & _) _]. rewrite Hres in H. now injection H as <-.
      * destruct (main_unencodable_files _ _ _ _ Hargv Hex Hres Htext Hopen Henc)
          as (Hw & Ht & _).
        split.
        { apply (Hreads _ _ (main_unencodable _ _ _ _ Hargv Hex Hres Htext Hopen Henc)).
          reflexivity. }
        rewrite Hw, Ht. split; [now right|]. split.
        { split; [intros _ | reflexivity]. now exists (c :: text0). }
        split; [now left|].
        intros text. split; [discriminate|].
        intros [(_ & _ & H & _) Henc']. rewrite Hres in H. injection H as <-.
        rewrite Henc in Henc'. discriminate Henc'.
    + destruct (main_unwritable_files _ _ _ _ _ Hargv Hex Hres Htext Hopen)
        as (Hw & Ht & _).
      split.
      { apply (Hreads [] (Raise e)); [|reflexivity].
        rewrite app_nil_r. exact (main_unwritable _ _ _ _ _ Hargv Hex Hres Htext Hopen). }
      rewrite Hw, Ht. split; [now left|]. split.
      { split; [discriminate|]. intros (text & _ & _ & _ & _ & H). discriminate H. }
      split; [now left|].
      intros text. split; [discriminate|].
      intros [(_ & _ & _ & _ & H) _]. discriminate H.
  - pose proof (main_failure _ _ _ _ Hargv Hex Hres Htruthy) as Hmain.
    split; [apply (Hreads _ _ Hmain); reflexivity|].
    rewrite Hmain, trace_pair, truncated_app, writes_app, Hw0, Ht0.
    cbn [truncated writes app].
    assert (Hno : forall text, result (read_pdf w pdf_path) = Ret (Some text)
                               -> text <> [] -> False).
    { intros text H Hne. rewrite Hres in H. injection H as ->.
      destruct text; [now destruct Hne | discriminate Htruthy]. }
    split; [now left|]. split.
    { split; [discriminate|]. intros (text & _ & _ & H & Hne & _). now destruct (Hno text). }
    split; [now left|].
    intros text. split; [discriminate|].
    intros [(_ & _ & H & Hne & _) _]. now destruct (Hno text).
Qed.

Lemma X7_witness :
  writes (trace (main sample_cv)) = [(Py.lit "cv_extracted.txt", cv_text)]
  /\ exists text,
       List.length (argv sample_cv) = 2
       /\ path_exists sample_cv (Py.lit "cv.pdf") = true
       /\ result (read_pdf sample_cv (Py.lit "cv.pdf")) = Ret (Some text)
       /\ text <> []
       /\ open_for_writing sample_cv (Py.lit "cv_extracted.txt") = Gives tt.
Proof.
  split; [reflexivity|].
  destruct (X7_main_footprint sample_cv) as (_ & _ & Hsaving & _).
  apply Hsaving. reflexivity.
Defined.

(** *** The output path *)

(** X8: the output path [main] computes never holds [.pdf].  So it is
    the input path exactly when the input path holds no [.pdf] (a path
    such as [CV.PDF]: only then is the input file the file written),
    and computing it from an output path changes nothing. *)
Theorem X8_output_path_has_no_pdf (pdf_path : Py.str) :
  let output_file := Py.replace (Py.lit ".pdf") (Py.lit "_extracted.txt") pdf_path in
  Py.contains (Py.lit ".pdf") output_file = false
  /\ (output_file = pdf_path <-> Py.contains (Py.lit ".pdf") pdf_path = false)
  /\ Py.replace (Py.lit ".pdf") (Py.lit "_extracted.txt") output_file = output_file.
Proof.
  pose proof (output_path_without_pdf _ pdf_path (le_n _)) as Hout.
  cbv zeta. fold (output_path pdf_path). split; [exact Hout|]. split.
  - split.
    + intros Heq. now rewrite Heq in Hout.
    + apply output_path_absent.
  - now apply output_path_absent.
Qed.

(** X13: for an input path [<stem>.pdf] whose stem holds no [.pdf],
    after a successful extraction whose output file opens and whose
    text can be encoded in UTF-8, the text [read_pdf] returned is
    stored in [<stem>_extracted.txt], which then holds exactly this
    text, and in no other file. *)
Theorem X13_output_file_of_pdf_path
        (w : world) (prog stem text : Py.str) :
  argv w = [prog; stem ++ Py.lit ".pdf"] ->
  path_exists w (stem ++ Py.lit ".pdf") = true ->
  Py.contains (Py.lit ".pdf") stem = false ->
  result (read_pdf w (stem ++ Py.lit ".pdf")) = Ret (Some text) ->
  text <> [] ->
  open_for_writing w (stem ++ Py.lit "_extracted.txt") = Gives tt ->
  Py.utf8_encodable text = true ->
  writes (trace (main w)) = [(stem ++ Py.lit "_extracted.txt", text)]
  /\ truncated (trace (main w)) = [stem ++ Py.lit "_extracted.txt"]
  /\ (forall before,
         content_after (trace (main w)) (stem ++ Py.lit "_extracted.txt") before
         = Some text)
  /\ result (main w) = Ret tt.
Proof.
  intros Hargv Hex Hstem Hres Htext Hopen Henc.
  rewrite <- (output_path_stem _ Hstem) in Hopen |- *.
  destruct (main_saved_files _ _ _ _ Hargv Hex Hres Htext Hopen Henc) as (Hw & Ht & Hc).
  repeat split; try assumption.
  now rewrite (main_saved _ _ _ _ Hargv Hex Hres Htext Hopen Henc).
Qed.

Lemma X13_witness :
  argv sample_cv = [prog; Py.lit "cv" ++ Py.lit ".pdf"]
  /\ path_exists sample_cv (Py.lit "cv" ++ Py.lit ".pdf") = true
  /\ Py.contains (Py.lit ".pdf") (Py.lit "cv") = false
  /\ result (read_pdf sample_cv (Py.lit "cv" ++ Py.lit ".pdf")) = Ret (Some cv_text)
  /\ cv_text <> []
  /\ open_for_writing sample_cv (Py.lit "cv" ++ Py.lit "_extracted.txt") = Gives tt
  /\ Py.utf8_encodable cv_text = true
  /\ writes (trace (main sample_cv)) = [(Py.lit "cv" ++ Py.lit "_extracted.txt", cv_text)]
  /\ truncated (trace (main sample_cv)) = [Py.lit "cv" ++ Py.lit "_extracted.txt"]
  /\ (forall before,
         content_after (trace (main sample_cv))
                       (Py.lit "cv" ++ Py.lit "_extracted.txt") before
         = Some cv_text)
  /\ result (main sample_cv) = Ret tt.
Proof.
  do 4 (split; [reflexivity|]). split; [discriminate|].
  do 2 (split; [reflexivity|]).
  apply (X13_output_file_of_pdf_path sample_cv prog (Py.lit "cv") cv_text);
    first [discriminate | reflexivity].
Defined.

(** *** The console preview *)

(** X9: after a successful extraction whose output file is opened and
    written without error, the last console line tells whether the
    preview was cut: it is [...] exactly when the printed preview is
    not the whole text, that is when the text has more than 2000
    characters (code points), and empty exactly when the preview is the
    whole text.  The file gets the whole text in both cases. *)
Theorem X9_ellipsis_marks_a_cut_preview
        (w : world) (prog pdf_path text : Py.str) :
  argv w = [prog; pdf_path] ->
  path_exists w pdf_path = true ->
  result (read_pdf w pdf_path) = Ret (Some text) ->
  text <> [] ->
  open_for_writing w (Py.replace (Py.lit ".pdf") (Py.lit "_extracted.txt") pdf_path)
  = Gives tt ->
  Py.utf8_encodable text = true ->
  (last (printed (trace (main w))) Py.nl = Py.lit "..." <-> Py.slice_to 2000 text <> text)
  /\ (last (printed (trace (main w))) Py.nl = Py.lit "" <-> Py.slice_to 2000 text = text)
  /\ (Py.slice_to 2000 text <> text <-> 2000 < List.length text)
  /\ map snd (writes (trace (main w))) = [text].
Proof.
  intros Hargv Hex Hres Htext Hopen Henc.
  destruct (main_saved_files _ _ _ _ Hargv Hex Hres Htext Hopen Henc) as (Hw & _).
  rewrite Hw. clear Hw.
  rewrite (main_saved _ _ _ _ Hargv Hex Hres Htext Hopen Henc), trace_pair.
  rewrite printed_app. cbn [printed]. rewrite printed_map_Print. unfold report.
  match goal with
  | |- context [?l ++ [?a; ?b; ?c; ?d; ?e]] =>
      change (l ++ [a; b; c; d; e]) with (l ++ [a; b; c; d] ++ [e])
  end.
  rewrite app_assoc, last_last.
  assert (Hcut : Py.slice_to 2000 text <> text <-> 2000 < List.length text).
  { split.
    - intros Hne. destruct (Nat.le_gt_cases (List.length text) 2000) as [Hle|Hlt];
        [|exact Hlt].
      now destruct Hne; apply slice_to_short.
    - intros Hlt Heq. pose proof (slice_to_length 2000 text) as Hlen.
      rewrite Heq in Hlen. lia. }
  destruct (Nat.ltb_spec 2000 (List.length text)) as [Hlt|Hle].
  - split; [|split; [|split; [exact Hcut | reflexivity]]].
    + split; [intros _; now apply Hcut | reflexivity].
    + split; [discriminate | intros Heq; apply Hcut in Hlt; contradiction].
  - assert (Heq : Py.slice_to 2000 text = text) by now apply slice_to_short.
    split; [|split; [|split; [exact Hcut | reflexivity]]].
    + split; [discriminate | intros Hne; contradiction].
    + split; [intros _; exact Heq | reflexivity].
Qed.

Lemma X9_witness :
  argv sample_long = [prog; Py.lit "long.pdf"]
  /\ path_exists sample_long (Py.lit "long.pdf") = true
  /\ result (read_pdf sample_long (Py.lit "long.pdf")) = Ret (Some long_text)
  /\ long_text <> []
  /\ open_for_writing sample_long
       (Py.replace (Py.lit ".pdf") (Py.lit "_extracted.txt") (Py.lit "long.pdf"))
     = Gives tt
  /\ Py.utf8_encodable long_text = true
  /\ (last (printed (trace (main sample_long))) Py.nl = Py.lit "..."
      <-> Py.slice_to 2000 long_text <> long_text)
  /\ (last (printed (trace (main sample_long))) Py.nl = Py.lit ""
      <-> Py.slice_to 2000 long_text = long_text)
  /\ (Py.slice_to 2000 long_text <> long_text <-> 2000 < List.length long_text)
  /\ map snd (writes (trace (main sample_long))) = [long_text].
Proof.
  split; [reflexivity|]. split; [reflexivity|].
  split; [vm_compute; reflexivity|]. split; [discriminate|].
  split; [reflexivity|]. split; [vm_compute; reflexivity|].
  apply (X9_ellipsis_marks_a_cut_preview sample_long prog (Py.lit "long.pdf") long_text);
    first [discriminate | vm_compute; reflexivity].
Defined.

(** *** Page numbers in the output *)

Lemma to_uint_nonnil (n : nat) : Nat.to_uint n <> Decimal.Nil.
Proof.
  rewrite <- (DecimalNat.Unsigned.of_to n), DecimalNat.Unsigned.to_of.
  apply DecimalFacts.unorm_nonnil.
Qed.

Lemma lit_inj (a b : string) : Py.lit a = Py.lit b -> a = b.
Proof.
  unfold Py.lit. intros H. apply (f_equal (map ascii_of_N)) in H.
  rewrite !map_map in H.
  rewrite !(map_ext _ (fun a => a) ascii_N_embedding), !map_id in H.
  apply (f_equal string_of_list_ascii) in H.
  now rewrite !string_of_list_ascii_of_string in H.
Qed.

Lemma str_of_nat_inj (n m : nat) : Py.str_of_nat n = Py.str_of_nat m -> n = m.
Proof.
  unfold Py.str_of_nat. intros H. apply lit_inj in H.
  apply DecimalNat.Unsigned.to_uint_inj.
  apply (f_equal NilZero.uint_of_string) in H.
  rewrite !NilZero.usu in H by apply to_uint_nonnil. now injection H.
Qed.

(** X10: the separator and the progress line name their page: two
    pages have the same separator, or the same progress line, only
    when they have the same number. *)
Theorem X10_page_lines_name_their_page (n m : nat) :
  (page_header n = page_header m <-> n = m)
  /\ (progress_line n = progress_line m <-> n = m).
Proof.
  split; (split; [|now intros ->]); intros H.
  - unfold page_header in H. apply app_inv_head, app_inv_head in H.
    now apply app_inv_tail, str_of_nat_inj in H.
  - unfold progress_line in H. apply app_inv_head in H.
    now apply app_inv_tail, str_of_nat_inj in H.
Qed.

(** *** The module level *)

Lemma shell_commands_map_Effect (tr : list event) :
  shell_commands (map Effect tr) = [].
Proof.
  induction tr as [|ev tr IH]; simpl; [reflexivity | assumption].
Qed.

(** X11: on a machine without PyPDF2 where pip cannot install it, the
    script prints its notice, runs [pip install PyPDF2] once and ends
    with the import error nobody catches (exit status 1); [main] is
    not reached, so whatever the command line says no file is opened
    or written. *)
Theorem X11_missing_dependency (h : host) :
  pypdf2_installed h = false ->
  pip_installs_pypdf2 h = false ->
  fst (script h)
  = [Effect (Print (Py.lit "PyPDF2 not found. Installing..."));
     Shell (Py.lit "pip install PyPDF2")]
  /\ snd (script h) = Raise (Py.lit "No module named 'PyPDF2'")
  /\ script_status (script h) = 1
  /\ opened (effects (fst (script h))) = []
  /\ writes (effects (fst (script h))) = [].
Proof.
  intros H1 H2. unfold script. rewrite H1, H2. repeat split.
Qed.

Lemma X11_witness :
  pypdf2_installed host_without_pypdf2 = false
  /\ pip_installs_pypdf2 host_without_pypdf2 = false
  /\ fst (script host_without_pypdf2)
     = [Effect (Print (Py.lit "PyPDF2 not found. Installing..."));
        Shell (Py.lit "pip install PyPDF2")]
  /\ snd (script host_without_pypdf2) = Raise (Py.lit "No module named 'PyPDF2'")
  /\ script_status (script host_without_pypdf2) = 1
  /\ opened (effects (fst (script host_without_pypdf2))) = []
  /\ writes (effects (fst (script host_without_pypdf2))) = [].
Proof.
  do 2 (split; [reflexivity|]).
  apply (X11_missing_dependency host_without_pypdf2); reflexivity.
Defined.

(** X12: the import fallback adds nothing else to a run.  The script
    runs a shell command only when the first import fails, and then
    [pip install PyPDF2] once, after its notice and before any event of
    [main]; when PyPDF2 is there, at once or after pip, and the file is
    run as a program, the events, the outcome and the exit status are
    those of [main]. *)
Theorem X12_script_runs_main (h : host) :
  pypdf2_installed h || pip_installs_pypdf2 h = true ->
  run_as_script h = true ->
  fst (script h)
  = (if pypdf2_installed h
     then []
     else [Effect (Print (Py.lit "PyPDF2 not found. Installing..."));
           Shell (Py.lit "pip install PyPDF2")])
    ++ map Effect (trace (main (host_world h)))
  /\ shell_commands (fst (script h))
     = (if pypdf2_installed h then [] else [Py.lit "pip install PyPDF2"])
  /\ snd (script h) = result (main (host_world h))
  /\ script_status (script h) = exit_status (main (host_world h)).
Proof.
  intros Himport Hrun. unfold script. rewrite Hrun.
  destruct (pypdf2_installed h); [|simpl in Himport; rewrite Himport];
    cbn [import_pypdf2 except_import_error and_then lift os_system print emit
         fst snd map app];
    destruct (main (host_world h)) as [tr [u|e|c]];
    cbn [fst snd map app trace result shell_commands];
    rewrite ?shell_commands_map_Effect; repeat split.
Qed.

Lemma X12_witness :
  pypdf2_installed host_installing_pypdf2 || pip_installs_pypdf2 host_installing_pypdf2 = true
  /\ run_as_script host_installing_pypdf2 = true
  /\ fst (script host_installing_pypdf2)
     = (if pypdf2_installed host_installing_pypdf2
        then []
        else [Effect (Print (Py.lit "PyPDF2 not found. Installing..."));
              Shell (Py.lit "pip install PyPDF2")])
       ++ map Effect (trace (main (host_world host_installing_pypdf2)))
  /\ shell_commands (fst (script host_installing_pypdf2))
     = (if pypdf2_installed host_installing_pypdf2 then [] else [Py.lit "pip install PyPDF2"])
  /\ snd (script host_installing_pypdf2) = result (main (host_world host_installing_pypdf2))
  /\ script_status (script host_installing_pypdf2)
     = exit_status (main (host_world host_installing_pypdf2)).
Proof.
  do 2 (split; [reflexivity|]).
  apply (X12_script_runs_main host_installing_pypdf2); reflexivity.
Defined.
